(** * cov2ai: LCOV report to payload of untested code

    A shallow embedding of [scripts/cov2ai.py]: the LCOV record parser
    [parse_lcov], the interval merging [merge_ranges] and the payload
    builder [llm_payload_from_lcov] with its local [slice_around].

    Python integers are unbounded, so they are [Z].  Text is [string]
    and is taken to be ASCII: the whitespace and digit classes are the
    ASCII ones.  A Python [dict] keeps insertion order, so it is an association
    list whose update keeps the position of an existing key.  A raised
    exception is a value of [exn] on the left of a sum. *)

From Stdlib Require Import ZArith List Bool Lia.
From Stdlib Require Import Strings.String Strings.Ascii.
From Stdlib Require Import Sorting.Sorted Sorting.Permutation.
Import ListNotations.

Open Scope string_scope.
Open Scope list_scope.
Open Scope Z_scope.

(** ** Python built-ins the script relies on *)

Module Py.

(** [str.isspace] on ASCII: TAB, LF, VT, FF, CR, the separators
    0x1c..0x1f and the space. *)
Definition is_space (c : ascii) : bool :=
  let n := nat_of_ascii c in
  ((9 <=? n) && (n <=? 13) || (28 <=? n) && (n <=? 32))%nat.

Definition is_digit (c : ascii) : bool :=
  let n := nat_of_ascii c in
  ((48 <=? n) && (n <=? 57))%nat.

Definition digit_value (c : ascii) : Z :=
  Z.of_nat (nat_of_ascii c) - 48.

(** Whitespace for [int] on ASCII text: the separators 0x1c..0x1f are
    not dropped there. *)
Definition is_c_space (c : ascii) : bool :=
  let n := nat_of_ascii c in
  ((9 <=? n) && (n <=? 13) || (n =? 32))%nat.

Fixpoint lstrip_by (sp : ascii -> bool) (s : string) : string :=
  match s with
  | String c r => if sp c then lstrip_by sp r else s
  | EmptyString => EmptyString
  end.

Fixpoint rstrip_by (sp : ascii -> bool) (s : string) : string :=
  match s with
  | String c r =>
      match rstrip_by sp r with
      | EmptyString => if sp c then EmptyString else String c EmptyString
      | r' => String c r'
      end
  | EmptyString => EmptyString
  end.

(** [s.strip()] *)
Definition strip (s : string) : string := rstrip_by is_space (lstrip_by is_space s).

(** [s.startswith(p)] *)
Fixpoint startswith (s p : string) {struct p} : bool :=
  match p, s with
  | EmptyString, _ => true
  | String a p', String b s' => Ascii.eqb a b && startswith s' p'
  | String _ _, EmptyString => false
  end.

(** [s[n:]] for [0 <= n] *)
Fixpoint drop (n : nat) (s : string) : string :=
  match n, s with
  | O, _ => s
  | S n', String _ r => drop n' r
  | S _, EmptyString => EmptyString
  end.

(** [s.split(sep, maxsplit)] for a one-character separator; [None] is
    the unbounded split.  The result is never empty. *)
Fixpoint split (sep : ascii) (maxsplit : option nat) (s : string) : list string :=
  match s with
  | EmptyString => [EmptyString]
  | String c r =>
      let glue := match split sep maxsplit r with
                  | p :: ps => String c p :: ps
                  | [] => [String c EmptyString]
                  end in
      if Ascii.eqb c sep then
        match maxsplit with
        | Some O => glue
        | Some (S m) => EmptyString :: split sep (Some m) r
        | None => EmptyString :: split sep None r
        end
      else glue
  end.

(** Digits of a decimal literal; a single underscore may sit between two
    digits.  [need] says that a digit must come next. *)
Fixpoint int_digits (need : bool) (acc : Z) (s : string) : option Z :=
  match s with
  | EmptyString => if need then None else Some acc
  | String c r =>
      if is_digit c then int_digits false (10 * acc + digit_value c) r
      else if Ascii.eqb c "_" && negb need then int_digits true acc r
      else None
  end.

(** [int(s)]: surrounding whitespace is dropped, one sign is allowed.
    [None] stands for the [ValueError] that [int] raises. *)
Definition int (s : string) : option Z :=
  match rstrip_by is_c_space (lstrip_by is_c_space s) with
  | String "+" r => int_digits true 0 r
  | String "-" r => option_map Z.opp (int_digits true 0 r)
  | t => int_digits true 0 t
  end.

(** [''.join(l)] *)
Definition join (l : list string) : string :=
  fold_right String.append EmptyString l.

(** [l[lo:hi]] with Python's treatment of negative and oversized
    bounds. *)
Definition clamp_index {A} (l : list A) (i : Z) : Z :=
  let n := Z.of_nat (List.length l) in
  if i <? 0 then Z.max 0 (i + n) else Z.min i n.

Definition slice {A} (l : list A) (lo hi : Z) : list A :=
  let lo' := clamp_index l lo in
  let hi' := clamp_index l hi in
  firstn (Z.to_nat (hi' - lo')) (skipn (Z.to_nat lo') l).

End Py.

(** ** Exceptions and the error monad *)

(** The exceptions the script can raise while it parses.  The two
    [ValueError]s differ in their message: [int] names the literal it
    could not read, a failed unpacking names the two lengths. *)
Inductive exn : Type :=
| ValueError_literal (lit : string)
| ValueError_unpack (expected got : nat)
| IndexError
| TypeError
| AttributeError.

Definition result (A : Type) : Type := (exn + A)%type.

Definition ret {A} (a : A) : result A := inr a.
Definition raise {A} (e : exn) : result A := inl e.

Definition bind {A B} (m : result A) (k : A -> result B) : result B :=
  match m with
  | inl e => inl e
  | inr a => k a
  end.

Notation "'let*' x ':=' m 'in' k" := (bind m (fun x => k))
  (at level 10, x pattern, m at level 100, k at level 200).

(** [int(s)] as a computation that may raise *)
Definition int (s : string) : result Z :=
  match Py.int s with
  | Some n => ret n
  | None => raise (ValueError_literal s)
  end.

(** ** Dictionaries *)

Section Dict.
Context {K V : Type}.
Variable eqb : K -> K -> bool.

Definition dict : Type := list (K * V).

(** [d.get(k)] *)
Fixpoint dict_get (k : K) (d : dict) : option V :=
  match d with
  | [] => None
  | (k', v) :: r => if eqb k k' then Some v else dict_get k r
  end.

(** [d[k] = v]: an existing key keeps its place, a new one goes last *)
Fixpoint dict_set (k : K) (v : V) (d : dict) : dict :=
  match d with
  | [] => [(k, v)]
  | (k', v') :: r => if eqb k k' then (k', v) :: r else (k', v') :: dict_set k v r
  end.
End Dict.

Arguments dict : clear implicits.

(** ** Coverage records *)

Record branch : Type := mkBranch {
  br_line : Z;
  br_block : Z;
  br_branch : Z;
  br_hits : Z
}.

(** The dictionary [cur] of [parse_lcov].  The key ['fn_defs'] is absent
    until the first [FN:] line of the record. *)
Record record : Type := mkRecord {
  file : string;
  lines : dict Z Z;
  functions : dict string Z;
  branches : list branch;
  fn_defs : option (dict string Z)
}.

Definition new_record (path : string) : record :=
  {| file := path; lines := []; functions := []; branches := []; fn_defs := None |}.

Definition set_line (c : record) (ln hits : Z) : record :=
  {| file := file c; lines := dict_set Z.eqb ln hits (lines c);
     functions := functions c; branches := branches c; fn_defs := fn_defs c |}.

Definition set_function (c : record) (name : string) (hits : Z) : record :=
  {| file := file c; lines := lines c;
     functions := dict_set String.eqb name hits (functions c);
     branches := branches c; fn_defs := fn_defs c |}.

(** [cur.setdefault('fn_defs', {})[fn_name] = fn_line] *)
Definition set_fn_def (c : record) (name : string) (ln : Z) : record :=
  {| file := file c; lines := lines c; functions := functions c;
     branches := branches c;
     fn_defs := Some (dict_set String.eqb name ln
                        (match fn_defs c with Some d => d | None => [] end)) |}.

Definition append_branch (c : record) (b : branch) : record :=
  {| file := file c; lines := lines c; functions := functions c;
     branches := branches c ++ [b]; fn_defs := fn_defs c |}.

(** ** [parse_lcov] *)

(** [if cur: files.append(cur)]; a record always has its four keys, so
    it is true whenever it is not [None]. *)
Definition flush (files : list record) (cur : option record) : list record :=
  match cur with
  | Some c => files ++ [c]
  | None => files
  end.

(** [cur[...]] on a [cur] that may be [None] *)
Definition subscript (cur : option record) : result record :=
  match cur with
  | Some c => ret c
  | None => raise TypeError
  end.

(** [cur.setdefault] on a [cur] that may be [None] *)
Definition attribute (cur : option record) : result record :=
  match cur with
  | Some c => ret c
  | None => raise AttributeError
  end.

(** One iteration of the loop over the lines of the report; the state
    is [(files, cur)].  The order of the steps inside a branch is
    Python's order of evaluation: the right-hand side of an assignment
    comes before its target. *)
Definition parse_line (files : list record) (cur : option record) (raw : string)
  : result (list record * option record) :=
  let line := Py.strip raw in
  if Py.startswith line "TN:" then ret (files, cur)
  else if Py.startswith line "SF:" then
    ret (flush files cur, Some (new_record (Py.drop 3 line)))
  else if Py.startswith line "DA:" then
    match Py.split "," (Some 2%nat) (Py.drop 3 line) with
    | ln :: hits :: _ =>
        let* h := int hits in
        let* c := subscript cur in
        let* n := int ln in
        ret (files, Some (set_line c n h))
    | _ => raise IndexError
    end
  else if Py.startswith line "FN:" then
    match Py.split "," (Some 1%nat) (Py.drop 3 line) with
    | [fn_line_str; fn_name] =>
        let* fn_line := int fn_line_str in
        let* c := attribute cur in
        ret (files, Some (set_fn_def c fn_name fn_line))
    | parts => raise (ValueError_unpack 2 (List.length parts))
    end
  else if Py.startswith line "FNDA:" then
    match Py.split "," (Some 1%nat) (Py.drop 5 line) with
    | [hits; fn_name] =>
        let* h := int hits in
        let* c := subscript cur in
        ret (files, Some (set_function c fn_name h))
    | parts => raise (ValueError_unpack 2 (List.length parts))
    end
  else if Py.startswith line "BRDA:" then
    match Py.split "," None (Py.drop 5 line) with
    | [l; b; br; hits] =>
        let* c := subscript cur in
        let* l' := int l in
        let* b' := int b in
        let* br' := int br in
        let* h := (if String.eqb hits "0" || String.eqb hits "-" then ret 0
                   else int hits) in
        ret (files, Some (append_branch c (mkBranch l' b' br' h)))
    | parts => raise (ValueError_unpack 4 (List.length parts))
    end
  else if String.eqb line "end_of_record" then
    ret (flush files cur, None)
  else ret (files, cur).

(** The loop, and the flush after it *)
Fixpoint parse_lines (report : list string) (files : list record) (cur : option record)
  : result (list record) :=
  match report with
  | [] => ret (flush files cur)
  | raw :: rest =>
      let* (files', cur') := parse_line files cur raw in
      parse_lines rest files' cur'
  end.

(** [parse_lcov], on the lines that iterating over the opened report
    yields *)
Definition parse_lcov (report : list string) : result (list record) :=
  parse_lines report [] None.

(** ** [merge_ranges] *)

Fixpoint insert (x : Z) (l : list Z) : list Z :=
  match l with
  | [] => [x]
  | y :: r => if x <=? y then x :: l else y :: insert x r
  end.

(** [sorted(lines)]; on integers every sorting algorithm returns the
    same list, here it is insertion sort. *)
Fixpoint sorted (l : list Z) : list Z :=
  match l with
  | [] => []
  | x :: r => insert x (sorted r)
  end.

(** [ranges[-1]] *)
Definition last_range (ranges : list (Z * Z)) : option (Z * Z) :=
  hd_error (rev ranges).

(** [ranges[-1][1] = ln] *)
Definition set_last_end (ranges : list (Z * Z)) (ln : Z) : list (Z * Z) :=
  match rev ranges with
  | [] => []
  | (s, _) :: before => rev before ++ [(s, ln)]
  end.

(** The body of the loop of [merge_ranges] *)
Definition merge_step (ranges : list (Z * Z)) (ln : Z) : list (Z * Z) :=
  match last_range ranges with
  | None => ranges ++ [(ln, ln)]
  | Some (_, e) =>
      if ln >? e + 1 then ranges ++ [(ln, ln)] else set_last_end ranges ln
  end.

Definition merge_ranges (lines : list Z) : list (Z * Z) :=
  fold_left merge_step (sorted lines) [].

(** ** [llm_payload_from_lcov] *)

Record unexec_func : Type := mkUnexec {
  uf_name : string;
  uf_line : option Z
}.

Record uncovered_branch : Type := mkUncovered {
  ub_line : Z;
  ub_branch : Z
}.

Inductive snippet : Type :=
| LinesSnippet (range : Z * Z) (code : string)
| FunctionSnippet (name : string) (line : Z) (code : string).

Definition snippet_code (s : snippet) : string :=
  match s with
  | LinesSnippet _ c => c
  | FunctionSnippet _ _ c => c
  end.

Record payload : Type := mkPayload {
  out_file : string;
  uncovered_ranges : list (Z * Z);
  uncovered_branches : list uncovered_branch;
  unexecuted_functions : list unexec_func;
  snippets : list snippet
}.

(** [os.path.join(a, b)] of [posixpath], for two components *)
Fixpoint ends_with_slash (a : string) : bool :=
  match a with
  | EmptyString => false
  | String c EmptyString => Ascii.eqb c "/"
  | String _ r => ends_with_slash r
  end.

Definition path_join (a b : string) : string :=
  if Py.startswith b "/" then b
  else if String.eqb a EmptyString || ends_with_slash a then String.append a b
  else String.append a (String.append "/" b).

(** Truth value of [uf['line']]: [None] and [0] are false *)
Definition truthy (line : option Z) : bool :=
  match line with
  | Some n => negb (n =? 0)
  | None => false
  end.

Definition default_context_lines : Z := 40.

Section Builder.
(** [read_lines path] is what [open(path).readlines()] returns, each
    line with its terminator; [None] when it raises. *)
Variable read_lines : string -> option (list string).
Variable repo_root : string.
Variable context_lines : Z.

(** The local function [slice_around]; [code] is [None] when the
    variable still holds the initial [''] because reading raised. *)
Definition slice_around (code : option (list string)) (start end_ : Z) : string :=
  match code with
  | None | Some [] => EmptyString
  | Some ls =>
      let lo := Z.max 0 (start - 1 - context_lines) in
      let hi := Z.min (Z.of_nat (List.length ls)) (end_ + context_lines) in
      Py.join (Py.slice ls lo hi)
  end.

(** [[ln for ln, hits in f['lines'].items() if hits == 0]] *)
Definition uncovered_lines (f : record) : list Z :=
  map fst (filter (fun e => snd e =? 0) (lines f)).

(** [f.get('fn_defs', {}).get(name)] *)
Definition fn_def_line (f : record) (name : string) : option Z :=
  dict_get String.eqb name (match fn_defs f with Some d => d | None => [] end).

Definition unexec_funcs (f : record) : list unexec_func :=
  map (fun e => mkUnexec (fst e) (fn_def_line f (fst e)))
      (filter (fun e => snd e =? 0) (functions f)).

Definition zero_hit_branches (f : record) : list uncovered_branch :=
  map (fun br => mkUncovered (br_line br) (br_branch br))
      (filter (fun br => br_hits br =? 0) (branches f)).

Definition range_snippets (code : option (list string)) (ranges : list (Z * Z))
  : list snippet :=
  map (fun r => LinesSnippet r (slice_around code (fst r) (snd r))) ranges.

Definition function_snippets (code : option (list string)) (ufs : list unexec_func)
  : list snippet :=
  flat_map (fun uf =>
              match uf_line uf with
              | Some ln =>
                  if truthy (uf_line uf)
                  then [FunctionSnippet (uf_name uf) ln (slice_around code ln (ln + 1))]
                  else []
              | None => []
              end) ufs.

(** The body of the loop over [files] *)
Definition payload_of (f : record) : payload :=
  let ranges := merge_ranges (uncovered_lines f) in
  let ufs := unexec_funcs f in
  let code := read_lines (path_join repo_root (file f)) in
  {| out_file := file f;
     uncovered_ranges := ranges;
     uncovered_branches := zero_hit_branches f;
     unexecuted_functions := ufs;
     snippets := range_snippets code ranges ++ function_snippets code ufs |}.

Definition llm_payload_from_lcov (report : list string) : result (list payload) :=
  let* files := parse_lcov report in
  ret (map payload_of files).
End Builder.

(** ** The LCOV grammar, for stating properties *)

(** What one line of a report says.  [BadNumber lit] is a line of a
    recognized tag with the right number of fields in which [lit] is
    the first field, in the order the parser reads them, that is not an
    integer; [BadShape] is a line of a recognized tag with too few or too
    many fields. *)
Inductive item : Type :=
| TestName
| Start (path : string)
| Data (ln hits : Z)
| FnDef (ln : Z) (name : string)
| FnHits (hits : Z) (name : string)
| Branch (b : branch)
| EndOfRecord
| Ignored
| BadNumber (lit : string)
| BadShape.

Definition number (lit : string) (k : Z -> item) : item :=
  match Py.int lit with
  | Some n => k n
  | None => BadNumber lit
  end.

Definition read_line (raw : string) : item :=
  let line := Py.strip raw in
  if Py.startswith line "TN:" then TestName
  else if Py.startswith line "SF:" then Start (Py.drop 3 line)
  else if Py.startswith line "DA:" then
    match Py.split "," (Some 2%nat) (Py.drop 3 line) with
    | ln :: hits :: _ => number hits (fun h => number ln (fun n => Data n h))
    | _ => BadShape
    end
  else if Py.startswith line "FN:" then
    match Py.split "," (Some 1%nat) (Py.drop 3 line) with
    | [ln; name] => number ln (fun n => FnDef n name)
    | _ => BadShape
    end
  else if Py.startswith line "FNDA:" then
    match Py.split "," (Some 1%nat) (Py.drop 5 line) with
    | [hits; name] => number hits (fun h => FnHits h name)
    | _ => BadShape
    end
  else if Py.startswith line "BRDA:" then
    match Py.split "," None (Py.drop 5 line) with
    | [l; b; br; hits] =>
        number l (fun l' => number b (fun b' => number br (fun br' =>
          if String.eqb hits "0" || String.eqb hits "-"
          then Branch (mkBranch l' b' br' 0)
          else number hits (fun h => Branch (mkBranch l' b' br' h)))))
    | _ => BadShape
    end
  else if String.eqb line "end_of_record" then EndOfRecord
  else Ignored.

(** A line with a malformed numeric field in a recognized tag *)
Definition malformed_numeric (raw : string) : bool :=
  match read_line raw with
  | BadNumber _ => true
  | _ => false
  end.

(** A field line: one of [DA:], [FN:], [FNDA:], [BRDA:], well formed *)
Definition field_line (raw : string) : bool :=
  match read_line raw with
  | Data _ _ | FnDef _ _ | FnHits _ _ | Branch _ => true
  | _ => false
  end.

(** A line that may stand inside a section: a well-formed field line, a
    test name or a line of an unknown tag *)
Definition body_line (raw : string) : bool :=
  match read_line raw with
  | Data _ _ | FnDef _ _ | FnHits _ _ | Branch _ | TestName | Ignored => true
  | _ => false
  end.

(** A line that may stand between sections *)
Definition idle_line (raw : string) : bool :=
  match read_line raw with
  | TestName | Ignored | EndOfRecord => true
  | _ => false
  end.

Definition is_end_of_record (raw : string) : bool :=
  match read_line raw with
  | EndOfRecord => true
  | _ => false
  end.

(** What a body line does to the open record *)
Definition apply_item (c : record) (it : item) : record :=
  match it with
  | Data ln hits => set_line c ln hits
  | FnDef ln name => set_fn_def c name ln
  | FnHits hits name => set_function c name hits
  | Branch b => append_branch c b
  | _ => c
  end.

Definition apply_body (c : record) (body : list string) : record :=
  fold_left (fun c raw => apply_item c (read_line raw)) body c.

(** The [DA:] data of a section, in report order *)
Definition da_entries (body : list string) : list (Z * Z) :=
  flat_map (fun raw => match read_line raw with
                       | Data ln hits => [(ln, hits)]
                       | _ => []
                       end) body.

(** A section of a well-formed report: the [SF:] line, the lines of the
    record, and what follows up to the next [SF:] line, which is either
    nothing or an [end_of_record] line and lines between sections. *)
Record section : Type := mkSection {
  sec_path : string;
  sec_start : string;
  sec_body : list string;
  sec_trailer : list string
}.

Definition section_lines (s : section) : list string :=
  sec_start s :: sec_body s ++ sec_trailer s.

Definition wf_trailer (t : list string) : bool :=
  match t with
  | [] => true
  | e :: rest => is_end_of_record e && forallb idle_line rest
  end.

Definition wf_section (s : section) : bool :=
  match read_line (sec_start s) with
  | Start p => String.eqb p (sec_path s)
  | _ => false
  end && forallb body_line (sec_body s) && wf_trailer (sec_trailer s).

Definition section_record (s : section) : record :=
  apply_body (new_record (sec_path s)) (sec_body s).

(** ** Ranges, for stating properties *)

Definition covers (r : Z * Z) (x : Z) : Prop := fst r <= x <= snd r.

Definition disjoint (a b : Z * Z) : Prop := forall x, ~ (covers a x /\ covers b x).

(** ** The window of the snippet, in the words of the design *)

(** Lines [a..b] of a file, 1-based and inclusive *)
Definition lines_between {A} (ls : list A) (a b : Z) : list A :=
  firstn (Z.to_nat (b - a + 1)) (skipn (Z.to_nat (a - 1)) ls).

Definition clipped_window (ls : list string) (C start end_ : Z) : string :=
  let last_line := Z.of_nat (List.length ls) in
  Py.join (lines_between ls (Z.max 1 (start - C)) (Z.min last_line (end_ + C))).

(** ** Definitions for the proofs *)

(** [gap a b]: range [b] starts after a hole behind range [a] *)
Definition gap (a b : Z * Z) : Prop := snd a + 1 < fst b.

(** The invariant, read on the reversed list so that the range the loop
    works on is at the head *)
Fixpoint chain (rs : list (Z * Z)) : Prop :=
  match rs with
  | [] => True
  | r :: rest =>
      fst r <= snd r /\
      match rest with
      | [] => True
      | p :: _ => gap p r
      end /\ chain rest
  end.

Definition merge_step_rev (rs : list (Z * Z)) (ln : Z) : list (Z * Z) :=
  match rs with
  | [] => [(ln, ln)]
  | (s, e) :: before =>
      if ln >? e + 1 then (ln, ln) :: (s, e) :: before else (s, ln) :: before
  end.

(** What [parse_line] does on a line, by what the line says and by
    whether a record is open *)
Definition agrees (files : list record) (cur : option record) (it : item)
  (r : result (list record * option record)) : Prop :=
  match it with
  | TestName | Ignored => r = inr (files, cur)
  | Start p => r = inr (flush files cur, Some (new_record p))
  | EndOfRecord => r = inr (flush files cur, None)
  | Data _ _ | FnHits _ _ | Branch _ =>
      match cur with
      | Some c => r = inr (files, Some (apply_item c it))
      | None => r = inl TypeError
      end
  | FnDef _ _ =>
      match cur with
      | Some c => r = inr (files, Some (apply_item c it))
      | None => r = inl AttributeError
      end
  | BadNumber lit =>
      Py.int lit = None /\
      match cur with
      | Some _ => r = inl (ValueError_literal lit)
      | None => exists e, r = inl e
      end
  | BadShape => exists e, r = inl e
  end.

Ltac line_cases :=
  repeat first
    [ progress cbv beta iota delta
        [agrees number int subscript attribute bind ret raise apply_item]
    | match goal with
      | |- context [if ?b then _ else _] => destruct b eqn:?
      | |- context [Py.split ?a ?b ?c] =>
          destruct (Py.split a b c) as [|? [|? [|? [|? [|? ?]]]]]
      | |- context [match Py.int ?x with _ => _ end] => destruct (Py.int x) eqn:?
      | |- context [match ?c with Some _ => _ | None => _ end] => is_var c; destruct c
      end ].

(** The state of the loop after the lines of [report], without the
    flush that follows the loop *)
Fixpoint loop_state (report : list string) (files : list record) (cur : option record)
  : result (list record * option record) :=
  match report with
  | [] => ret (files, cur)
  | raw :: rest =>
      let* (files', cur') := parse_line files cur raw in
      loop_state rest files' cur'
  end.

Fixpoint distinct (l : list Z) : bool :=
  match l with
  | [] => true
  | x :: r => negb (existsb (Z.eqb x) r) && distinct r
  end.

Definition ten_lines : list string :=
  ["l1;"; "l2;"; "l3;"; "l4;"; "l5;"; "l6;"; "l7;"; "l8;"; "l9;"; "l10;"].

(** ** Sample data for the runs *)

Definition no_files : string -> option (list string) := fun _ => None.

(** A tree that holds [./a.c] with two lines *)
Definition sample_files : string -> option (list string) :=
  fun path => if String.eqb path "./a.c" then Some ["int f();"; "int g();"] else None.

Definition sample_record : record :=
  {| file := "a.c"; lines := [(1, 1); (2, 0)]; functions := [("g", 0)];
     branches := [mkBranch 2 0 0 0]; fn_defs := Some [("g", 3)] |}.

Definition foo_record : record :=
  {| file := "a.c"; lines := []; functions := [("foo", 0); ("bar", 2)];
     branches := []; fn_defs := Some [("bar", 3)] |}.

Definition zero_record : record :=
  {| file := "a.c"; lines := []; functions := [("f", 0)];
     branches := []; fn_defs := Some [("f", 0)] |}.

(** ** The script's entry point *)

(** [s[:n]] on text *)
Definition str_prefix (s : string) (n : Z) : string :=
  string_of_list_ascii (Py.slice (list_ascii_of_string s) 0 n).

Definition prompt_path : string := "prompts/TESTS.md".

Section Main.
(** [dumps] is [json.dumps(_, ensure_ascii=False)] of the standard
    library.  [read_text path] is what [open(path).read()] returns, or
    on the left the text of the exception it raises.  The report is the
    lines of [build/coverage/lcov.info]. *)
Variable dumps : list payload -> string.
Variable read_lines : string -> option (list string).
Variable read_text : string -> string + string.

(** The block under [if __name__ == '__main__'], with the parsed
    arguments [size] and [raw]; the result is the list of the texts
    printed, one per call of [print]. *)
Definition main (size : Z) (raw : bool) (report : list string) : result (list string) :=
  let* payload := llm_payload_from_lcov read_lines "." default_context_lines report in
  let header :=
    if negb raw then
      match read_text prompt_path with
      | inr text => [text]
      | inl e => [String.append "# Warning: failed to read prompt: " e]
      end
    else [] in
  ret (header ++ [str_prefix (dumps (Py.slice payload 0 10)) size]).
End Main.

(** ** More definitions for stating properties *)

(** A line the loop passes over: a test name, or a line that has none
    of the recognized tags *)
Definition skipped_line (raw : string) : bool :=
  let line := Py.strip raw in
  Py.startswith line "TN:" ||
  negb (Py.startswith line "SF:" || Py.startswith line "DA:" ||
        Py.startswith line "FN:" || Py.startswith line "FNDA:" ||
        Py.startswith line "BRDA:" || String.eqb line "end_of_record").

(** The paths of the [SF:] lines of a report, in report order *)
Definition sf_paths (report : list string) : list string :=
  flat_map (fun raw => match read_line raw with
                       | Start p => [p]
                       | _ => []
                       end) report.

(** The keys of the two dictionaries of hit counts are pairwise
    different. *)
Definition unique_keys (f : record) : Prop :=
  NoDup (map fst (lines f)) /\ NoDup (map fst (functions f)).

(** Ranges in canonical form: not empty, ascending, with a hole between
    neighbours *)
Definition canonical (rs : list (Z * Z)) : Prop :=
  StronglySorted gap rs /\ Forall (fun r => fst r <= snd r) rs.

Definition covered (rs : list (Z * Z)) (x : Z) : Prop :=
  exists r, In r rs /\ covers r x.

Fixpoint no_comma (s : string) : bool :=
  match s with
  | EmptyString => true
  | String c r => negb (Ascii.eqb c ",") && no_comma r
  end.

(** Lines [a+1 .. b] of a list, counted from 1 *)
Definition seg {A} (a b : nat) (l : list A) : list A :=
  firstn (b - a) (skipn a l).

(** A line of a recognized tag with too few or too many fields *)
Definition bad_shape (raw : string) : bool :=
  match read_line raw with
  | BadShape => true
  | _ => false
  end.

(** The [BRDA:] data of a section, in report order *)
Definition branch_entries (body : list string) : list branch :=
  flat_map (fun raw => match read_line raw with
                       | Branch b => [b]
                       | _ => []
                       end) body.

(** * Properties *)

(** ** The built-ins on examples *)

Example strip_ex :
  Py.strip (String.append "  DA:1,0 " (String (ascii_of_nat 10) EmptyString)) = "DA:1,0".
Proof. reflexivity. Qed.

Example split_ex1 : Py.split "," (Some 2%nat) "1,2,3,4" = ["1"; "2"; "3,4"].
Proof. reflexivity. Qed.

Example split_ex2 : Py.split "," None EmptyString = [EmptyString].
Proof. reflexivity. Qed.

Example split_ex3 : Py.split "," (Some 1%nat) "3,a,b" = ["3"; "a,b"].
Proof. reflexivity. Qed.

Example int_ex1 : Py.int " -12 " = Some (-12).
Proof. reflexivity. Qed.

Example int_ex2 : Py.int "1_000" = Some 1000.
Proof. reflexivity. Qed.

Example int_ex4 :
  Py.int (String (ascii_of_nat 9) "7 ") = Some 7 /\
  Py.int (String (ascii_of_nat 28) "7") = None /\
  Py.strip (String (ascii_of_nat 28) "7") = "7".
Proof. repeat split; reflexivity. Qed.

Example int_ex3 : Py.int "1__0" = None /\ Py.int EmptyString = None /\ Py.int "-" = None /\ Py.int "x" = None.
Proof. repeat split; reflexivity. Qed.

Example slice_ex : Py.slice [1;2;3;4;5] 1 (-1) = [2;3;4].
Proof. reflexivity. Qed.

(** ** Sorting *)

Lemma insert_In (a x : Z) (l : list Z) : In x (insert a l) <-> x = a \/ In x l.
Proof.
  induction l as [|y r IH]; simpl.
  - intuition.
  - destruct (a <=? y); simpl; rewrite ?IH; intuition.
Qed.

Lemma sorted_In (x : Z) (l : list Z) : In x (sorted l) <-> In x l.
Proof.
  induction l as [|y r IH]; simpl; [tauto|].
  rewrite insert_In, IH. intuition.
Qed.

Lemma insert_StronglySorted (a : Z) (l : list Z) :
  StronglySorted Z.le l -> StronglySorted Z.le (insert a l).
Proof.
  induction 1 as [|y r Hs IH Hall]; simpl.
  - constructor; constructor.
  - destruct (a <=? y) eqn:E.
    + apply Z.leb_le in E. constructor.
      * constructor; assumption.
      * constructor; [assumption|].
        eapply Forall_impl; [|exact Hall]. intros; lia.
    + apply Z.leb_gt in E. constructor; [assumption|].
      apply Forall_forall. intros z Hz. apply insert_In in Hz.
      destruct Hz as [->|Hz]; [lia|].
      rewrite Forall_forall in Hall. auto.
Qed.

Lemma sorted_StronglySorted (l : list Z) : StronglySorted Z.le (sorted l).
Proof.
  induction l; simpl; [constructor | apply insert_StronglySorted; assumption].
Qed.

(** ** [merge_ranges]: the invariant of the loop *)

Lemma merge_step_rev_eq (rs : list (Z * Z)) (ln : Z) :
  merge_step (rev rs) ln = rev (merge_step_rev rs ln).
Proof.
  unfold merge_step, last_range, set_last_end. rewrite rev_involutive.
  destruct rs as [|[s e] before]; simpl; [reflexivity|].
  destruct (ln >? e + 1); reflexivity.
Qed.

Lemma merge_step_rev_inv (rs : list (Z * Z)) (ln : Z) (seen : list Z) :
  chain rs ->
  (forall x, (exists r, In r rs /\ covers r x) <-> In x seen) ->
  (forall r, hd_error rs = Some r -> snd r <= ln) ->
  chain (merge_step_rev rs ln) /\
  (forall x, (exists r, In r (merge_step_rev rs ln) /\ covers r x) <-> In x (ln :: seen)) /\
  (exists s, hd_error (merge_step_rev rs ln) = Some (s, ln)).
Proof.
  intros Hc Hcov Hle. destruct rs as [|[s e] before]; simpl.
  - split; [|split].
    + repeat split; simpl; lia.
    + intros x; split.
      * intros [r [[<-|[]] Hr]]. unfold covers in Hr; simpl in Hr. left; lia.
      * intros [<-|Hx].
        -- exists (ln, ln). split; [now left|unfold covers; simpl; lia].
        -- apply Hcov in Hx. destruct Hx as [r [[] _]].
    + eexists; reflexivity.
  - specialize (Hle _ eq_refl). simpl in Hle.
    destruct Hc as [Hse [Hgap Hrest]]. simpl in Hse.
    destruct (ln >? e + 1) eqn:E.
    + apply Z.gtb_lt in E. split; [|split].
      * simpl. unfold gap; simpl. repeat split; try lia; try assumption.
      * intros x; split.
        -- intros [r [[<-|Hin] Hr]].
           ++ unfold covers in Hr; simpl in Hr. left; lia.
           ++ right. apply Hcov. eauto.
        -- intros [<-|Hx].
           ++ exists (ln, ln). split; [now left|unfold covers; simpl; lia].
           ++ apply Hcov in Hx. destruct Hx as [r [Hin Hr]].
              exists r. split; [now right|assumption].
      * eexists; reflexivity.
    + assert (ln <= e + 1) by (destruct (Z.gtb_spec ln (e + 1)); [discriminate|lia]).
      split; [|split].
      * simpl. split; [lia|]. split; [|assumption].
        destruct before as [|p ?]; [exact I|]. unfold gap in *; simpl in *; lia.
      * intros x; split.
        -- intros [r [[<-|Hin] Hr]].
           ++ unfold covers in Hr; simpl in Hr.
              destruct (Z.eq_dec ln x) as [->|Hne]; [now left|right].
              apply Hcov. exists (s, e). split; [now left|unfold covers; simpl; lia].
           ++ right. apply Hcov. exists r. split; [now right|assumption].
        -- intros [<-|Hx].
           ++ exists (s, ln). split; [now left|unfold covers; simpl; lia].
           ++ apply Hcov in Hx. destruct Hx as [r [[<-|Hin] Hr]].
              ** exists (s, ln). split; [now left|]. unfold covers in *; simpl in *; lia.
              ** exists r. split; [now right|assumption].
      * eexists; reflexivity.
Qed.

Lemma merge_fold_inv (todo : list Z) : forall (rs : list (Z * Z)) (seen : list Z),
  StronglySorted Z.le todo ->
  chain rs ->
  (forall x, (exists r, In r rs /\ covers r x) <-> In x seen) ->
  (forall r y, hd_error rs = Some r -> In y todo -> snd r <= y) ->
  exists out, fold_left merge_step todo (rev rs) = rev out /\ chain out /\
    (forall x, (exists r, In r out /\ covers r x) <-> In x seen \/ In x todo).
Proof.
  induction todo as [|ln todo IH]; intros rs seen Hs Hc Hcov Hle; simpl.
  - exists rs. repeat split; try assumption.
    + intros H; left; apply Hcov; assumption.
    + intros [H|[]]. apply Hcov; assumption.
  - apply StronglySorted_inv in Hs. destruct Hs as [Hs Hall].
    rewrite Forall_forall in Hall.
    destruct (merge_step_rev_inv rs ln seen Hc Hcov) as [Hc' [Hcov' [s Hhd]]].
    { intros r Hr. apply (Hle r ln Hr). now left. }
    rewrite merge_step_rev_eq.
    destruct (IH (merge_step_rev rs ln) (ln :: seen) Hs Hc' Hcov') as [out [Ho [Hco Hcovo]]].
    { intros r y Hr Hy. rewrite Hhd in Hr. injection Hr as <-. simpl. auto. }
    exists out. repeat split; try assumption.
    + intros H. apply Hcovo in H. simpl in H. intuition.
    + intros H. apply Hcovo. simpl. intuition.
Qed.

Lemma chain_nonempty (rs : list (Z * Z)) :
  chain rs -> Forall (fun r => fst r <= snd r) rs.
Proof.
  induction rs as [|r rest IH]; simpl; intros H; constructor; tauto.
Qed.

Lemma chain_StronglySorted (rs : list (Z * Z)) :
  chain rs -> StronglySorted (fun a b => gap b a) rs.
Proof.
  induction rs as [|r rest IH]; simpl; intros H; [constructor|].
  destruct H as [_ [Hg Hc]]. specialize (IH Hc). constructor; [assumption|].
  destruct rest as [|p rest']; [constructor|].
  apply StronglySorted_inv in IH. destruct IH as [_ Hall].
  simpl in Hc. destruct Hc as [Hp _].
  constructor; [assumption|].
  eapply Forall_impl; [|exact Hall]. unfold gap in *. intros q Hq. simpl in Hq. lia.
Qed.

Lemma StronglySorted_snoc {A} (R : A -> A -> Prop) (l : list A) (a : A) :
  StronglySorted R l -> Forall (fun y => R y a) l -> StronglySorted R (l ++ [a]).
Proof.
  induction 1 as [|x l Hs IH Hall]; intros Ha; simpl.
  - constructor; constructor.
  - apply Forall_cons_iff in Ha. destruct Ha as [Hx Ha].
    constructor; [auto|]. apply Forall_app. split; [assumption|]. constructor; [assumption|constructor].
Qed.

Lemma StronglySorted_rev {A} (R : A -> A -> Prop) (l : list A) :
  StronglySorted (fun a b => R b a) l -> StronglySorted R (rev l).
Proof.
  induction 1 as [|x l Hs IH Hall]; simpl; [constructor|].
  apply StronglySorted_snoc; [assumption|].
  apply Forall_rev. assumption.
Qed.

Lemma StronglySorted_adjacent {A} (R : A -> A -> Prop) (pre post : list A) (a b : A) :
  StronglySorted R (pre ++ a :: b :: post) -> R a b.
Proof.
  induction pre as [|x pre IH]; simpl; intros H; apply StronglySorted_inv in H.
  - destruct H as [_ H]. apply Forall_cons_iff in H. tauto.
  - tauto.
Qed.

Lemma StronglySorted_weaken {A} (R Q : A -> A -> Prop) (P : A -> Prop) (l : list A) :
  (forall a b, P a -> P b -> R a b -> Q a b) ->
  Forall P l -> StronglySorted R l -> StronglySorted Q l.
Proof.
  intros HRQ HP. induction 1 as [|x l Hs IH Hall]; [constructor|].
  apply Forall_cons_iff in HP. destruct HP as [Hx HP].
  constructor; [auto|].
  rewrite Forall_forall in *. auto.
Qed.

Lemma StronglySorted_OrdPairs {A} (R : A -> A -> Prop) (l : list A) :
  StronglySorted R l -> ForallOrdPairs R l.
Proof.
  induction 1; constructor; assumption.
Qed.

Lemma merge_ranges_chain (lines : list Z) :
  exists out, merge_ranges lines = rev out /\ chain out /\
    (forall x, (exists r, In r out /\ covers r x) <-> In x lines).
Proof.
  unfold merge_ranges.
  destruct (merge_fold_inv (sorted lines) [] [] (sorted_StronglySorted lines)) as [out [Ho [Hc Hcov]]].
  - exact I.
  - intros x; split; [intros [r [[] _]] | intros []].
  - intros r y Hr; discriminate.
  - exists out. repeat split; try assumption.
    + intros H. apply Hcov in H. destruct H as [[]|H]. apply sorted_In; assumption.
    + intros H. apply Hcov. right. apply sorted_In; assumption.
Qed.

(** C1. For every list of integer line numbers (in particular every
    finite set of non-negative ones), the ranges [merge_ranges] returns
    are sorted ascending by start, pairwise disjoint, each with
    start <= end, no two adjacent ones satisfy nextStart <= prevEnd + 1,
    and the line numbers they cover are exactly the given ones; the
    empty input gives the empty list. *)
Theorem merge_ranges_correct (lines : list Z) :
  StronglySorted (fun a b => fst a < fst b) (merge_ranges lines) /\
  ForallOrdPairs disjoint (merge_ranges lines) /\
  Forall (fun r => fst r <= snd r) (merge_ranges lines) /\
  (forall pre a b post,
      merge_ranges lines = pre ++ a :: b :: post -> ~ (fst b <= snd a + 1)) /\
  (forall x, (exists r, In r (merge_ranges lines) /\ covers r x) <-> In x lines) /\
  merge_ranges [] = [].
Proof.
  destruct (merge_ranges_chain lines) as [out [-> [Hc Hcov]]].
  assert (Hne : Forall (fun r => fst r <= snd r) (rev out))
    by (apply Forall_rev, chain_nonempty; assumption).
  assert (Hg : StronglySorted gap (rev out))
    by (apply StronglySorted_rev, chain_StronglySorted; assumption).
  repeat split.
  - eapply StronglySorted_weaken; [|exact Hne|exact Hg].
    unfold gap; simpl; intros; lia.
  - apply StronglySorted_OrdPairs.
    eapply StronglySorted_weaken; [|exact Hne|exact Hg].
    unfold gap, disjoint, covers; simpl; intros; lia.
  - assumption.
  - intros pre a b post E. rewrite E in Hg.
    apply StronglySorted_adjacent in Hg. unfold gap in Hg. lia.
  - intros [r [Hin Hr]]. apply Hcov. exists r. split; [apply in_rev; assumption|assumption].
  - intros H. apply Hcov in H. destruct H as [r [Hin Hr]].
    exists r. split; [apply in_rev in Hin; assumption|assumption].
Qed.

(** ** [parse_lcov]: one line *)

Lemma parse_line_agrees (files : list record) (cur : option record) (raw : string) :
  agrees files cur (read_line raw) (parse_line files cur raw).
Proof.
  unfold parse_line, read_line.
  generalize (Py.strip raw) as line. intros line.
  line_cases; try reflexivity; try (eexists; reflexivity);
    try (split; [assumption|]; try reflexivity; eexists; reflexivity).
Qed.

Lemma parse_line_body (files : list record) (c : record) (raw : string) :
  body_line raw = true ->
  parse_line files (Some c) raw = inr (files, Some (apply_item c (read_line raw))).
Proof.
  intros H. pose proof (parse_line_agrees files (Some c) raw) as A.
  unfold body_line in H. destruct (read_line raw); try discriminate; exact A.
Qed.

Lemma parse_line_idle (files : list record) (raw : string) :
  idle_line raw = true -> parse_line files None raw = inr (files, None).
Proof.
  intros H. pose proof (parse_line_agrees files None raw) as A.
  unfold idle_line in H. destruct (read_line raw); try discriminate; exact A.
Qed.

Lemma parse_line_start (files : list record) (cur : option record) (raw p : string) :
  read_line raw = Start p ->
  parse_line files cur raw = inr (flush files cur, Some (new_record p)).
Proof.
  intros H. pose proof (parse_line_agrees files cur raw) as A.
  rewrite H in A. exact A.
Qed.

Lemma parse_line_end (files : list record) (cur : option record) (raw : string) :
  is_end_of_record raw = true ->
  parse_line files cur raw = inr (flush files cur, None).
Proof.
  intros H. pose proof (parse_line_agrees files cur raw) as A.
  unfold is_end_of_record in H. destruct (read_line raw); try discriminate; exact A.
Qed.

(** ** [parse_lcov]: the loop over a well-formed report *)

Lemma parse_lines_body (body rest : list string) : forall (files : list record) (c : record),
  forallb body_line body = true ->
  parse_lines (body ++ rest) files (Some c) = parse_lines rest files (Some (apply_body c body)).
Proof.
  induction body as [|raw body IH]; intros files c H; simpl; [reflexivity|].
  simpl in H. apply andb_prop in H. destruct H as [Hr Hb].
  rewrite (parse_line_body files c raw Hr). simpl. apply IH. assumption.
Qed.

Lemma parse_lines_idle (ls rest : list string) (files : list record) :
  forallb idle_line ls = true ->
  parse_lines (ls ++ rest) files None = parse_lines rest files None.
Proof.
  induction ls as [|raw ls IH]; intros H; simpl; [reflexivity|].
  simpl in H. apply andb_prop in H. destruct H as [Hr Hb].
  rewrite (parse_line_idle files raw Hr). simpl. apply IH. assumption.
Qed.

Lemma parse_lines_section (s : section) (files : list record) (cur : option record) :
  wf_section s = true ->
  exists files' cur',
    (forall rest, parse_lines (section_lines s ++ rest) files cur
                  = parse_lines rest files' cur') /\
    flush files' cur' = flush files cur ++ [section_record s].
Proof.
  unfold wf_section, section_lines, section_record. intros H.
  apply andb_prop in H. destruct H as [H Ht]. apply andb_prop in H. destruct H as [Hs Hb].
  destruct (read_line (sec_start s)) as [|p| | | | | | | |] eqn:E; try discriminate.
  apply String.eqb_eq in Hs. subst p.
  destruct (sec_trailer s) as [|e t].
  - exists (flush files cur), (Some (apply_body (new_record (sec_path s)) (sec_body s))).
    split; [|reflexivity]. intros rest. simpl.
    rewrite (parse_line_start _ _ _ _ E). simpl.
    rewrite app_nil_r. apply parse_lines_body. assumption.
  - simpl in Ht. apply andb_prop in Ht. destruct Ht as [He Hi].
    exists (flush files cur ++ [apply_body (new_record (sec_path s)) (sec_body s)]), None.
    split; [|reflexivity]. intros rest. simpl.
    rewrite (parse_line_start _ _ _ _ E). simpl.
    rewrite <- app_assoc. rewrite parse_lines_body by assumption. simpl.
    rewrite (parse_line_end _ _ _ He). simpl.
    apply parse_lines_idle. assumption.
Qed.

Lemma parse_lines_sections (secs : list section) : forall (files : list record) (cur : option record),
  forallb wf_section secs = true ->
  parse_lines (flat_map section_lines secs) files cur
  = inr (flush files cur ++ map section_record secs).
Proof.
  induction secs as [|s secs IH]; intros files cur H.
  - simpl. rewrite app_nil_r. reflexivity.
  - simpl in H. apply andb_prop in H. destruct H as [Hs Hr].
    destruct (parse_lines_section s files cur Hs) as [files' [cur' [Hp Hf]]].
    change (flat_map section_lines (s :: secs))
      with (section_lines s ++ flat_map section_lines secs).
    rewrite Hp. simpl. rewrite IH by assumption. rewrite Hf. rewrite <- app_assoc. reflexivity.
Qed.

(** A report of lines without data followed by well-formed sections
    parses to one record per section, in order. *)
Lemma parse_lcov_sections (pre : list string) (secs : list section) :
  forallb idle_line pre = true ->
  forallb wf_section secs = true ->
  parse_lcov (pre ++ flat_map section_lines secs) = inr (map section_record secs).
Proof.
  intros Hp Hs. unfold parse_lcov.
  rewrite parse_lines_idle by assumption.
  rewrite parse_lines_sections by assumption. reflexivity.
Qed.

Lemma apply_item_file (c : record) (it : item) : file (apply_item c it) = file c.
Proof. destruct it; reflexivity. Qed.

Lemma apply_body_file (body : list string) : forall c, file (apply_body c body) = file c.
Proof.
  unfold apply_body. induction body as [|raw body IH]; intros c; simpl; [reflexivity|].
  rewrite IH. apply apply_item_file.
Qed.

(** C2. A report with two [SF:] sections and no [end_of_record] line
    (lines that carry no data before the first [SF:], well-formed lines
    inside the sections) parses to the two sections as two separate
    records, in report order: an open record is flushed when the next
    [SF:] line is seen, and the record still open at the end of the
    input is flushed too. *)
Theorem parse_lcov_two_sections
  (pre body1 body2 : list string) (start1 start2 p1 p2 : string) :
  forallb idle_line pre = true ->
  read_line start1 = Start p1 ->
  read_line start2 = Start p2 ->
  forallb body_line body1 = true ->
  forallb body_line body2 = true ->
  parse_lcov (pre ++ start1 :: body1 ++ start2 :: body2)
  = inr [apply_body (new_record p1) body1; apply_body (new_record p2) body2] /\
  file (apply_body (new_record p1) body1) = p1 /\
  file (apply_body (new_record p2) body2) = p2 /\
  (forall files c, parse_line files (Some c) start2
                   = inr (files ++ [c], Some (new_record p2))) /\
  (forall files c, parse_lines [] files (Some c) = inr (files ++ [c])).
Proof.
  intros Hpre H1 H2 Hb1 Hb2.
  split; [|split; [|split; [|split]]].
  - pose proof (parse_lcov_sections pre
                  [mkSection p1 start1 body1 []; mkSection p2 start2 body2 []] Hpre) as H.
    cbn [flat_map] in H. unfold section_lines in H.
    cbn [sec_start sec_body sec_trailer] in H.
    rewrite !app_nil_r in H. apply H.
    cbn [forallb]. unfold wf_section, wf_trailer.
    cbn [sec_start sec_body sec_trailer sec_path].
    rewrite H1, H2, Hb1, Hb2, !String.eqb_refl. reflexivity.
  - apply apply_body_file.
  - apply apply_body_file.
  - intros files c. apply (parse_line_start files (Some c) start2 p2 H2).
  - reflexivity.
Qed.

Lemma parse_lcov_two_sections_witness :
  parse_lcov ["TN:unit"; "SF:a.c"; "DA:1,1"; "DA:2,0"; "SF:b.c"; "FN:3,g"; "FNDA:0,g"]
  = inr [ {| file := "a.c"; lines := [(1, 1); (2, 0)]; functions := [];
             branches := []; fn_defs := None |};
          {| file := "b.c"; lines := []; functions := [("g", 0)];
             branches := []; fn_defs := Some [("g", 3)] |} ].
Proof.
  exact (proj1 (parse_lcov_two_sections
                  ["TN:unit"] ["DA:1,1"; "DA:2,0"] ["FN:3,g"; "FNDA:0,g"]
                  "SF:a.c" "SF:b.c" "a.c" "b.c"
                  eq_refl eq_refl eq_refl eq_refl eq_refl)).
Defined.

(** ** [parse_lcov]: malformed lines *)

Lemma parse_lines_app (pre rest : list string) : forall files cur,
  parse_lines (pre ++ rest) files cur
  = let* (files', cur') := loop_state pre files cur in parse_lines rest files' cur'.
Proof.
  induction pre as [|raw pre IH]; intros files cur; simpl; [reflexivity|].
  destruct (parse_line files cur raw) as [e|[files' cur']]; simpl; [reflexivity|apply IH].
Qed.

Lemma parse_line_malformed (files : list record) (cur : option record) (raw : string) :
  malformed_numeric raw = true -> exists e, parse_line files cur raw = inl e.
Proof.
  intros H. pose proof (parse_line_agrees files cur raw) as A.
  unfold malformed_numeric in H. destruct (read_line raw); try discriminate.
  destruct A as [_ A]. destruct cur; eauto.
Qed.

Lemma parse_lines_malformed (report : list string) : forall files cur,
  existsb malformed_numeric report = true -> exists e, parse_lines report files cur = inl e.
Proof.
  induction report as [|raw rest IH]; intros files cur H; simpl in *; [discriminate|].
  destruct (parse_line files cur raw) as [e|[files' cur']] eqn:E; simpl; [eauto|].
  apply orb_prop in H. destruct H as [H|H]; [|apply IH; assumption].
  destruct (parse_line_malformed files cur raw H) as [e He]. congruence.
Qed.

(** C3, as the code has it. A report with a malformed numeric field in a
    recognized tag never parses: [parse_lcov] raises and returns no
    records, and so does the builder.  When the line is reached with a
    record open, the exception is the [ValueError] of [int], which names
    the field that is not an integer. *)
Theorem parse_lcov_malformed_numeric (report : list string) :
  existsb malformed_numeric report = true ->
  (exists e, parse_lcov report = inl e /\
             forall read_lines repo_root C,
               llm_payload_from_lcov read_lines repo_root C report = inl e) /\
  (forall pre raw rest files c lit,
      report = pre ++ raw :: rest ->
      loop_state pre [] None = inr (files, Some c) ->
      read_line raw = BadNumber lit ->
      parse_lcov report = inl (ValueError_literal lit) /\ Py.int lit = None).
Proof.
  intros H. split.
  { destruct (parse_lines_malformed report [] None H) as [e He].
    exists e. split; [exact He|]. intros read_lines repo_root C.
    unfold llm_payload_from_lcov, parse_lcov. rewrite He. reflexivity. }
  intros pre raw rest files c lit -> Hst Hr.
  unfold parse_lcov. rewrite parse_lines_app, Hst. simpl.
  pose proof (parse_line_agrees files (Some c) raw) as A. rewrite Hr in A.
  destruct A as [Hint A]. rewrite A. split; [reflexivity|assumption].
Qed.

Lemma parse_lcov_malformed_numeric_witness :
  parse_lcov ["SF:a.c"; "DA:1,1"; "BRDA:2,0,x,1"; "end_of_record"]
  = inl (ValueError_literal "x").
Proof.
  exact (proj1 (proj2 (parse_lcov_malformed_numeric
                         ["SF:a.c"; "DA:1,1"; "BRDA:2,0,x,1"; "end_of_record"] eq_refl)
                  ["SF:a.c"; "DA:1,1"] "BRDA:2,0,x,1" ["end_of_record"]
                  [] (set_line (new_record "a.c") 1 1) "x" eq_refl eq_refl eq_refl)).
Defined.

(** C3, as it is written, fails: the first line that raises decides the
    exception, and it need not be the [ValueError] of a numeric field. *)
Lemma parse_lcov_malformed_numeric_counterexample :
  existsb malformed_numeric ["SF:a.c"; "DA:7"; "DA:x,1"] = true /\
  parse_lcov ["SF:a.c"; "DA:7"; "DA:x,1"] = inl IndexError /\
  ~ (exists lit, parse_lcov ["SF:a.c"; "DA:7"; "DA:x,1"] = inl (ValueError_literal lit)).
Proof.
  split; [reflexivity|]. split; [reflexivity|].
  intros [lit H]. discriminate H.
Qed.

(** C4. A field line met while no record is open is not skipped: the
    parser reaches into [cur], which is [None], and raises. *)
Theorem field_line_without_record_raises :
  parse_lcov ["DA:1,0"] = inl TypeError /\
  parse_lcov ["SF:a.c"; "end_of_record"; "FN:1,f"] = inl AttributeError /\
  parse_lcov ["FNDA:0,f"; "SF:a.c"] = inl TypeError /\
  parse_lcov ["TN:"; "BRDA:1,0,0,-"] = inl TypeError.
Proof. repeat split; reflexivity. Qed.

(** ** Dictionaries *)

Section DictFacts.
Context {K V : Type}.
Variable eqb : K -> K -> bool.
Hypothesis eqb_eq : forall a b, eqb a b = true <-> a = b.

Lemma dict_get_In (k : K) (v : V) (d : dict K V) :
  dict_get eqb k d = Some v -> In (k, v) d.
Proof.
  induction d as [|[k' v'] r IH]; simpl; [discriminate|].
  destruct (eqb k k') eqn:E.
  - apply eqb_eq in E. subst k'. intros [= ->]. now left.
  - intros H. right. auto.
Qed.

Lemma dict_get_iff_In (k : K) (v : V) (d : dict K V) :
  NoDup (map fst d) -> (dict_get eqb k d = Some v <-> In (k, v) d).
Proof.
  intros Hnd. split; [apply dict_get_In|].
  induction d as [|[k' v'] r IH]; simpl; [tauto|].
  simpl in Hnd. apply NoDup_cons_iff in Hnd. destruct Hnd as [Hk Hnd].
  intros [[= -> ->]|Hin].
  - replace (eqb k k) with true; [reflexivity|]. symmetry. apply eqb_eq. reflexivity.
  - destruct (eqb k k') eqn:E; [|auto].
    apply eqb_eq in E. subst k'. exfalso. apply Hk.
    apply (in_map fst) in Hin. exact Hin.
Qed.

Lemma dict_set_fresh (k : K) (v : V) (d : dict K V) :
  ~ In k (map fst d) -> dict_set eqb k v d = d ++ [(k, v)].
Proof.
  induction d as [|[k' v'] r IH]; simpl; intros H; [reflexivity|].
  destruct (eqb k k') eqn:E.
  - apply eqb_eq in E. subst k'. tauto.
  - rewrite IH by tauto. reflexivity.
Qed.

Lemma dict_set_all_fresh (es : dict K V) : forall d : dict K V,
  NoDup (map fst d ++ map fst es) ->
  fold_left (fun d e => dict_set eqb (fst e) (snd e) d) es d = d ++ es.
Proof.
  induction es as [|[k v] es IH]; intros d H; simpl.
  - rewrite app_nil_r. reflexivity.
  - simpl in H. rewrite dict_set_fresh.
    + rewrite IH; [rewrite <- app_assoc; reflexivity|].
      rewrite map_app. simpl. rewrite <- app_assoc. exact H.
    + apply NoDup_remove_2 in H. intros Hin. apply H. apply in_or_app. now left.
Qed.
End DictFacts.

Lemma distinct_NoDup (l : list Z) : distinct l = true -> NoDup l.
Proof.
  induction l as [|x r IH]; simpl; intros H; constructor.
  - apply andb_prop in H. destruct H as [H _].
    intros Hin. apply negb_true_iff in H.
    assert (existsb (Z.eqb x) r = true); [|congruence].
    apply existsb_exists. exists x. split; [assumption|apply Z.eqb_refl].
  - apply andb_prop in H. tauto.
Qed.

(** ** The [lines] mapping of a parsed section *)

Lemma apply_body_lines (body : list string) : forall c,
  lines (apply_body c body)
  = fold_left (fun d e => dict_set Z.eqb (fst e) (snd e) d) (da_entries body) (lines c).
Proof.
  unfold apply_body, da_entries.
  induction body as [|raw body IH]; intros c; simpl; [reflexivity|].
  rewrite fold_left_app, IH. f_equal.
  destruct (read_line raw); reflexivity.
Qed.

Lemma section_record_lines (s : section) :
  distinct (map fst (da_entries (sec_body s))) = true ->
  lines (section_record s) = da_entries (sec_body s).
Proof.
  intros H. unfold section_record. rewrite apply_body_lines. simpl.
  rewrite (dict_set_all_fresh Z.eqb Z.eqb_eq); [reflexivity|].
  simpl. apply distinct_NoDup. assumption.
Qed.

(** C9. For a well-formed report (lines without data, then sections of
    well-formed lines in which no line number has two [DA:] entries),
    parsing succeeds, gives one record per section, and the [lines]
    mapping of each record holds exactly the [DA:] data of its section:
    the same pairs of line and hit count, and no other entry. *)
Theorem parse_lcov_lines_roundtrip (pre : list string) (secs : list section) :
  forallb idle_line pre = true ->
  forallb wf_section secs = true ->
  forallb (fun s => distinct (map fst (da_entries (sec_body s)))) secs = true ->
  exists recs,
    parse_lcov (pre ++ flat_map section_lines secs) = inr recs /\
    Forall2 (fun s r =>
               file r = sec_path s /\
               lines r = da_entries (sec_body s) /\
               forall ln hits, dict_get Z.eqb ln (lines r) = Some hits
                               <-> In (ln, hits) (da_entries (sec_body s)))
            secs recs.
Proof.
  intros Hp Hs Hd. exists (map section_record secs).
  split; [apply parse_lcov_sections; assumption|].
  clear Hp Hs. induction secs as [|s secs IH]; simpl; constructor.
  - simpl in Hd. apply andb_prop in Hd. destruct Hd as [Hd _].
    split; [apply apply_body_file|]. split; [apply section_record_lines; assumption|].
    intros ln hits. rewrite section_record_lines by assumption.
    apply (dict_get_iff_In Z.eqb Z.eqb_eq). apply distinct_NoDup. assumption.
  - apply IH. simpl in Hd. apply andb_prop in Hd. tauto.
Qed.

Lemma parse_lcov_lines_roundtrip_witness :
  exists recs,
    parse_lcov ["TN:"; "SF:a.c"; "DA:3,0"; "FN:1,f"; "DA:1,2,abc"; "end_of_record";
                "TN:"; "SF:b.c"; "DA:7,1"]
    = inr recs /\
    Forall2 (fun s r =>
               file r = sec_path s /\
               lines r = da_entries (sec_body s) /\
               forall ln hits, dict_get Z.eqb ln (lines r) = Some hits
                               <-> In (ln, hits) (da_entries (sec_body s)))
            [mkSection "a.c" "SF:a.c" ["DA:3,0"; "FN:1,f"; "DA:1,2,abc"] ["end_of_record"; "TN:"];
             mkSection "b.c" "SF:b.c" ["DA:7,1"] []]
            recs.
Proof.
  exact (parse_lcov_lines_roundtrip ["TN:"]
           [mkSection "a.c" "SF:a.c" ["DA:3,0"; "FN:1,f"; "DA:1,2,abc"] ["end_of_record"; "TN:"];
            mkSection "b.c" "SF:b.c" ["DA:7,1"] []]
           eq_refl eq_refl eq_refl).
Defined.

(** ** Branches *)

Lemma brda_prefix (line : string) :
  Py.startswith line "BRDA:" = true ->
  Py.startswith line "TN:" = false /\ Py.startswith line "SF:" = false /\
  Py.startswith line "DA:" = false /\ Py.startswith line "FN:" = false /\
  Py.startswith line "FNDA:" = false.
Proof.
  destruct line as [|c r]; cbn [Py.startswith]; [discriminate|].
  destruct (Ascii.eqb_spec "B" c) as [<-|]; [|discriminate].
  intros _. repeat split; reflexivity.
Qed.

Lemma read_line_brda (raw l b br hits : string) (l' b' br' : Z) :
  Py.startswith (Py.strip raw) "BRDA:" = true ->
  Py.split "," None (Py.drop 5 (Py.strip raw)) = [l; b; br; hits] ->
  Py.int l = Some l' -> Py.int b = Some b' -> Py.int br = Some br' ->
  read_line raw =
    if String.eqb hits "0" || String.eqb hits "-" then Branch (mkBranch l' b' br' 0)
    else number hits (fun h => Branch (mkBranch l' b' br' h)).
Proof.
  intros Hp Hs Hl Hb Hbr. unfold read_line.
  destruct (brda_prefix _ Hp) as [-> [-> [-> [-> ->]]]].
  rewrite Hp, Hs. unfold number. rewrite Hl, Hb, Hbr. reflexivity.
Qed.

Lemma zero_hit_branches_append (c : record) (b : branch) :
  zero_hit_branches (append_branch c b)
  = zero_hit_branches c
    ++ (if br_hits b =? 0 then [mkUncovered (br_line b) (br_branch b)] else []).
Proof.
  unfold zero_hit_branches. simpl. rewrite filter_app, map_app. simpl.
  destruct (br_hits b =? 0); reflexivity.
Qed.

(** C5. A [BRDA:] line read into an open record appends one branch
    observation.  When its hits field is [-] or [0] the observation is
    stored with hit count 0 and the payload of the record gains, at the
    end of [uncovered_branches], the entry with its line and branch
    index; when the field is a non-zero integer the observation is
    stored with that count and [uncovered_branches] is unchanged. *)
Theorem brda_line_uncovered
  (read_lines : string -> option (list string)) (repo_root : string) (C : Z)
  (files : list record) (c : record) (raw l b br hits : string) (l' b' br' : Z) :
  Py.startswith (Py.strip raw) "BRDA:" = true ->
  Py.split "," None (Py.drop 5 (Py.strip raw)) = [l; b; br; hits] ->
  Py.int l = Some l' -> Py.int b = Some b' -> Py.int br = Some br' ->
  (hits = "0" \/ hits = "-" ->
   exists c',
     parse_line files (Some c) raw = inr (files, Some c') /\
     branches c' = branches c ++ [mkBranch l' b' br' 0] /\
     uncovered_branches (payload_of read_lines repo_root C c')
     = uncovered_branches (payload_of read_lines repo_root C c)
       ++ [mkUncovered l' br']) /\
  (forall h, Py.int hits = Some h -> h <> 0 ->
   exists c',
     parse_line files (Some c) raw = inr (files, Some c') /\
     branches c' = branches c ++ [mkBranch l' b' br' h] /\
     uncovered_branches (payload_of read_lines repo_root C c')
     = uncovered_branches (payload_of read_lines repo_root C c)).
Proof.
  intros Hp Hs Hl Hb Hbr.
  pose proof (read_line_brda raw l b br hits l' b' br' Hp Hs Hl Hb Hbr) as R.
  pose proof (parse_line_agrees files (Some c) raw) as A.
  split.
  - intros Hz.
    assert (E : String.eqb hits "0" || String.eqb hits "-" = true)
      by (destruct Hz as [-> | ->]; reflexivity).
    rewrite E in R. rewrite R in A. simpl in A.
    eexists. split; [exact A|]. split; [reflexivity|].
    simpl. rewrite zero_hit_branches_append. reflexivity.
  - intros h Hh Hne.
    assert (E : String.eqb hits "0" || String.eqb hits "-" = false).
    { destruct (String.eqb_spec hits "0") as [->|_].
      - vm_compute in Hh. congruence.
      - destruct (String.eqb_spec hits "-") as [->|_]; [|reflexivity].
        vm_compute in Hh. discriminate. }
    rewrite E in R. unfold number in R. rewrite Hh in R. rewrite R in A. simpl in A.
    eexists. split; [exact A|]. split; [reflexivity|].
    simpl. rewrite zero_hit_branches_append. simpl.
    destruct (Z.eqb_spec h 0); [contradiction|]. apply app_nil_r.
Qed.

Lemma brda_line_uncovered_witness :
  let rl := fun _ : string => @None (list string) in
  let c := new_record "a.c" in
  (exists c',
     parse_line [] (Some c) "BRDA:10,0,0,-" = inr ([], Some c') /\
     branches c' = branches c ++ [mkBranch 10 0 0 0] /\
     uncovered_branches (payload_of rl "." 40 c')
     = uncovered_branches (payload_of rl "." 40 c) ++ [mkUncovered 10 0]) /\
  (exists c',
     parse_line [] (Some c) "BRDA:10,0,1,3" = inr ([], Some c') /\
     branches c' = branches c ++ [mkBranch 10 0 1 3] /\
     uncovered_branches (payload_of rl "." 40 c')
     = uncovered_branches (payload_of rl "." 40 c)).
Proof.
  intros rl c. split.
  - apply (proj1 (brda_line_uncovered rl "." 40 [] c "BRDA:10,0,0,-" "10" "0" "0" "-"
                    10 0 0 eq_refl eq_refl eq_refl eq_refl eq_refl)).
    right. reflexivity.
  - apply (proj2 (brda_line_uncovered rl "." 40 [] c "BRDA:10,0,1,3" "10" "0" "1" "3"
                    10 0 1 eq_refl eq_refl eq_refl eq_refl eq_refl) 3).
    + reflexivity.
    + discriminate.
Defined.

(** ** Unexecuted functions and their snippets *)

Lemma unexec_funcs_In (f : record) (name : string) :
  dict_get String.eqb name (functions f) = Some 0 ->
  In (mkUnexec name (fn_def_line f name)) (unexec_funcs f).
Proof.
  intros H. apply (dict_get_In String.eqb String.eqb_eq) in H.
  unfold unexec_funcs.
  apply (in_map (fun e => mkUnexec (fst e) (fn_def_line f (fst e))) _ (name, 0)).
  apply filter_In. split; [assumption|reflexivity].
Qed.

Lemma unexec_funcs_line (f : record) (uf : unexec_func) :
  In uf (unexec_funcs f) -> uf_line uf = fn_def_line f (uf_name uf).
Proof.
  unfold unexec_funcs. intros H. apply in_map_iff in H.
  destruct H as [e [<- _]]. reflexivity.
Qed.

(** A function snippet exists only for a definition line that is
    recorded and is not 0. *)
Lemma function_snippet_inv
  (read_lines : string -> option (list string)) (repo_root : string) (C : Z)
  (f : record) (name : string) (ln : Z) (code : string) :
  In (FunctionSnippet name ln code) (snippets (payload_of read_lines repo_root C f)) ->
  fn_def_line f name = Some ln /\ ln <> 0.
Proof.
  simpl. intros H. apply in_app_or in H. destruct H as [H|H].
  - unfold range_snippets in H. apply in_map_iff in H.
    destruct H as [r [Hr _]]. discriminate Hr.
  - unfold function_snippets in H. apply in_flat_map in H.
    destruct H as [uf [Huf H]].
    pose proof (unexec_funcs_line f uf Huf) as Hl.
    destruct (uf_line uf) as [n|] eqn:E; [|destruct H].
    simpl in H. destruct (Z.eqb_spec n 0) as [->|Hn]; simpl in H; [destruct H|].
    destruct H as [H|[]]. injection H as <- <- _.
    split; [symmetry; assumption|assumption].
Qed.

(** C6. A function with zero recorded executions and no recorded
    definition line is listed in [unexecuted_functions] with line
    [None], and no function snippet is produced for it. *)
Theorem unexecuted_without_definition
  (read_lines : string -> option (list string)) (repo_root : string) (C : Z)
  (f : record) (name : string) :
  dict_get String.eqb name (functions f) = Some 0 ->
  fn_def_line f name = None ->
  In (mkUnexec name None) (unexecuted_functions (payload_of read_lines repo_root C f)) /\
  forall ln code,
    ~ In (FunctionSnippet name ln code) (snippets (payload_of read_lines repo_root C f)).
Proof.
  intros Hf Hd. split.
  - simpl. rewrite <- Hd. apply unexec_funcs_In. assumption.
  - intros ln code H. apply function_snippet_inv in H. destruct H as [H _]. congruence.
Qed.

(** C10. A function with zero recorded executions whose recorded
    definition line is 0 is listed in [unexecuted_functions] with line
    0, and no function snippet is produced for it: the builder tests the
    line for truth, and 0 is false. *)
Theorem unexecuted_with_definition_line_zero
  (read_lines : string -> option (list string)) (repo_root : string) (C : Z)
  (f : record) (name : string) :
  dict_get String.eqb name (functions f) = Some 0 ->
  fn_def_line f name = Some 0 ->
  In (mkUnexec name (Some 0)) (unexecuted_functions (payload_of read_lines repo_root C f)) /\
  forall ln code,
    ~ In (FunctionSnippet name ln code) (snippets (payload_of read_lines repo_root C f)).
Proof.
  intros Hf Hd. split.
  - simpl. rewrite <- Hd. apply unexec_funcs_In. assumption.
  - intros ln code H. apply function_snippet_inv in H. destruct H as [H Hn]. congruence.
Qed.

(** ** Snippets *)

Lemma skipn_beyond {A} (n : nat) (l : list A) : (List.length l <= n)%nat -> skipn n l = [].
Proof.
  revert n. induction l as [|x r IH]; intros n H.
  - destruct n; reflexivity.
  - destruct n; simpl in *; [lia|]. apply IH. lia.
Qed.

(** C7. For a readable source file and a target span whose end plus the
    context window is not negative (every 1-based span with a
    non-negative window), [slice_around] returns the concatenated text of
    the lines [max(1, start - C) .. min(lastLine, end + C)] of the
    file. *)
Theorem slice_around_clipped_window (C : Z) (ls : list string) (start end_ : Z) :
  0 <= end_ + C ->
  slice_around C (Some ls) start end_ = clipped_window ls C start end_.
Proof.
  intros H. unfold slice_around, clipped_window, lines_between.
  destruct ls as [|x r].
  - simpl. destruct (Z.to_nat (Z.max 1 (start - C) - 1)); simpl; rewrite firstn_nil; reflexivity.
  - set (ls := x :: r). set (n := Z.of_nat (List.length ls)).
    assert (Hn : 0 <= n) by (unfold n; lia).
    f_equal. unfold Py.slice, Py.clamp_index. fold n.
    destruct (Z.ltb_spec (Z.max 0 (start - 1 - C)) 0) as [Hlo|Hlo]; [lia|].
    destruct (Z.ltb_spec (Z.min n (end_ + C)) 0) as [Hhi|Hhi]; [lia|].
    replace (Z.max 1 (start - C) - 1) with (Z.max 0 (start - 1 - C)) by lia.
    replace (Z.min (Z.min n (end_ + C)) n) with (Z.min n (end_ + C)) by lia.
    destruct (Z_le_gt_dec (Z.max 0 (start - 1 - C)) n) as [Hle|Hgt].
    + replace (Z.min (Z.max 0 (start - 1 - C)) n) with (Z.max 0 (start - 1 - C)) by lia.
      f_equal. lia.
    + replace (Z.min (Z.max 0 (start - 1 - C)) n) with n by lia.
      rewrite (skipn_beyond (Z.to_nat n)) by (unfold n; lia).
      rewrite (skipn_beyond (Z.to_nat (Z.max 0 (start - 1 - C)))) by (unfold n in Hgt; lia).
      rewrite !firstn_nil. reflexivity.
Qed.

Lemma slice_around_clipped_window_witness :
  slice_around default_context_lines (Some ten_lines) 5 5
  = clipped_window ten_lines default_context_lines 5 5.
Proof.
  apply (slice_around_clipped_window default_context_lines ten_lines 5 5).
  unfold default_context_lines. lia.
Defined.

(** C8. When the source file of a record cannot be read, every snippet
    of its payload has the empty string as code, and the payload is built
    with the full coverage data of the record: its file, the ranges that
    cover exactly the lines with hit count 0, the branch observations
    with hit count 0, the functions with hit count 0 with their recorded
    lines, and one snippet per range and per function whose line is not
    0.  The coverage data and the number of snippets are the same as with
    any other reader, and the builder returns one payload per parsed
    record whatever can be read. *)
Theorem unreadable_source_payload
  (read_lines : string -> option (list string)) (repo_root : string) (C : Z) (f : record) :
  read_lines (path_join repo_root (file f)) = None ->
  Forall (fun s => snippet_code s = EmptyString)
         (snippets (payload_of read_lines repo_root C f)) /\
  (forall read_lines',
      let p := payload_of read_lines repo_root C f in
      let p' := payload_of read_lines' repo_root C f in
      out_file p = out_file p' /\
      uncovered_ranges p = uncovered_ranges p' /\
      uncovered_branches p = uncovered_branches p' /\
      unexecuted_functions p = unexecuted_functions p' /\
      List.length (snippets p) = List.length (snippets p')) /\
  (forall report files,
      parse_lcov report = inr files ->
      llm_payload_from_lcov read_lines repo_root C report
      = inr (map (payload_of read_lines repo_root C) files)) /\
  (let p := payload_of read_lines repo_root C f in
   out_file p = file f /\
   uncovered_ranges p
   = merge_ranges (map fst (filter (fun e => snd e =? 0) (lines f))) /\
   (forall x, (exists r, In r (uncovered_ranges p) /\ covers r x) <-> In (x, 0) (lines f)) /\
   uncovered_branches p
   = map (fun br => mkUncovered (br_line br) (br_branch br))
         (filter (fun br => br_hits br =? 0) (branches f)) /\
   unexecuted_functions p
   = map (fun e => mkUnexec (fst e)
                     (dict_get String.eqb (fst e)
                        (match fn_defs f with Some d => d | None => [] end)))
         (filter (fun e => snd e =? 0) (functions f)) /\
   snippets p
   = map (fun r => LinesSnippet r EmptyString) (uncovered_ranges p)
     ++ flat_map (fun uf => match uf_line uf with
                            | Some ln =>
                                if ln =? 0 then []
                                else [FunctionSnippet (uf_name uf) ln EmptyString]
                            | None => []
                            end) (unexecuted_functions p)).
Proof.
  intros H. split; [|split; [|split]].
  - simpl. rewrite H. apply Forall_app. split.
    + unfold range_snippets. apply Forall_forall. intros s Hs.
      apply in_map_iff in Hs. destruct Hs as [r [<- _]]. reflexivity.
    + unfold function_snippets. apply Forall_forall. intros s Hs.
      apply in_flat_map in Hs. destruct Hs as [uf [_ Hs]].
      destruct (uf_line uf) as [n|]; [|destruct Hs].
      destruct (truthy (Some n)); [|destruct Hs].
      destruct Hs as [<-|[]]. reflexivity.
  - intros rl'. simpl. repeat split; try reflexivity.
    rewrite !length_app. unfold range_snippets. rewrite !length_map. f_equal.
    unfold function_snippets.
    induction (unexec_funcs f) as [|uf ufs IH]; simpl; [reflexivity|].
    rewrite !length_app, IH. f_equal.
    destruct (uf_line uf) as [n|]; [|reflexivity].
    destruct (truthy (Some n)); reflexivity.
  - intros report files Hp. unfold llm_payload_from_lcov. rewrite Hp. reflexivity.
  - cbv zeta. split; [reflexivity|]. split; [reflexivity|]. split; [|split; [reflexivity|]].
    + intros x. simpl.
      destruct (merge_ranges_chain (uncovered_lines f)) as [out [-> [_ Hcov]]].
      assert (Hin : In x (uncovered_lines f) <-> In (x, 0) (lines f)).
      { unfold uncovered_lines. rewrite in_map_iff. split.
        - intros [[k v] [<- Hk]]. apply filter_In in Hk. destruct Hk as [Hk Hz].
          simpl in *. apply Z.eqb_eq in Hz. subst v. assumption.
        - intros Hk. exists (x, 0). split; [reflexivity|].
          apply filter_In. split; [assumption|reflexivity]. }
      rewrite <- Hin, <- Hcov.
      split; intros [r [Hr Hc]]; exists r; split; try assumption.
      * apply in_rev. assumption.
      * apply in_rev in Hr. assumption.
    + split; [reflexivity|]. simpl. rewrite H. f_equal.
      unfold function_snippets. apply flat_map_ext. intros uf.
      destruct (uf_line uf) as [n|]; [|reflexivity].
      simpl. destruct (n =? 0); reflexivity.
Qed.

Lemma unreadable_source_payload_witness :
  Forall (fun s => snippet_code s = EmptyString)
         (snippets (payload_of no_files "." 40 sample_record)) /\
  out_file (payload_of no_files "." 40 sample_record) = "a.c" /\
  uncovered_ranges (payload_of no_files "." 40 sample_record) = [(2, 2)] /\
  uncovered_branches (payload_of no_files "." 40 sample_record) = [mkUncovered 2 0] /\
  unexecuted_functions (payload_of no_files "." 40 sample_record) = [mkUnexec "g" (Some 3)] /\
  snippets (payload_of no_files "." 40 sample_record)
  = [LinesSnippet (2, 2) EmptyString; FunctionSnippet "g" 3 EmptyString].
Proof.
  destruct (unreadable_source_payload no_files "." 40 sample_record eq_refl)
    as [A [_ [_ [F [R [_ [B [U S]]]]]]]].
  split; [exact A|]. split; [exact F|]. split; [exact R|].
  split; [exact B|]. split; [exact U|exact S].
Defined.

Lemma unexecuted_without_definition_witness :
  parse_lcov ["SF:a.c"; "FN:3,bar"; "FNDA:0,foo"; "FNDA:2,bar"; "end_of_record"]
  = inr [foo_record] /\
  In (mkUnexec "foo" None)
     (unexecuted_functions (payload_of sample_files "." 40 foo_record)) /\
  forall ln code,
    ~ In (FunctionSnippet "foo" ln code) (snippets (payload_of sample_files "." 40 foo_record)).
Proof.
  split; [reflexivity|].
  exact (unexecuted_without_definition sample_files "." 40 foo_record "foo" eq_refl eq_refl).
Defined.

Lemma unexecuted_with_definition_line_zero_witness :
  parse_lcov ["SF:a.c"; "FN:0,f"; "FNDA:0,f"; "end_of_record"] = inr [zero_record] /\
  In (mkUnexec "f" (Some 0))
     (unexecuted_functions (payload_of sample_files "." 40 zero_record)) /\
  forall ln code,
    ~ In (FunctionSnippet "f" ln code) (snippets (payload_of sample_files "." 40 zero_record)).
Proof.
  split; [reflexivity|].
  exact (unexecuted_with_definition_line_zero sample_files "." 40 zero_record "f"
           eq_refl eq_refl).
Defined.

(** ** Runs of the script *)

(** The report of three data lines and the source of two lines *)
Example end_to_end :
  llm_payload_from_lcov sample_files "." 40
    ["SF:a.c"; "DA:1,1"; "DA:2,0"; "end_of_record"]
  = inr [ {| out_file := "a.c";
             uncovered_ranges := [(2, 2)];
             uncovered_branches := [];
             unexecuted_functions := [];
             snippets := [LinesSnippet (2, 2) "int f();int g();"] |} ].
Proof. reflexivity. Qed.

Example snippet_ten_lines :
  slice_around 40 (Some ten_lines) 5 5 = Py.join ten_lines.
Proof. reflexivity. Qed.

Example snippet_unreadable : slice_around 40 None 5 5 = EmptyString.
Proof. reflexivity. Qed.

(** Below the domain of spans: a negative upper bound counts from the
    end of the file, as every negative index of a Python slice does. *)
Example snippet_negative_span :
  slice_around 0 (Some ten_lines) (-5) (-3) = "l1;l2;l3;l4;l5;l6;l7;" /\
  clipped_window ten_lines 0 (-5) (-3) = EmptyString.
Proof. split; reflexivity. Qed.

(** With a definition line other than 0 the function has its snippet. *)
Example function_snippet_line_one :
  option_map (fun ps => map snippets ps)
    match llm_payload_from_lcov sample_files "." 40 ["SF:a.c"; "FN:1,f"; "FNDA:0,f"] with
    | inr ps => Some ps
    | inl _ => None
    end
  = Some [[FunctionSnippet "f" 1 "int f();int g();"]].
Proof. reflexivity. Qed.

(** Two [DA:] entries for one line: the later one stays. *)
Example repeated_line_last_wins :
  parse_lcov ["SF:a.c"; "DA:5,1"; "DA:7,0"; "DA:5,0"]
  = inr [ {| file := "a.c"; lines := [(5, 0); (7, 0)]; functions := [];
             branches := []; fn_defs := None |} ].
Proof. reflexivity. Qed.

Example merge_ranges_ex :
  merge_ranges [7; 3; 1; 2; 9; 8; 3] = [(1, 3); (7, 9)].
Proof. reflexivity. Qed.

Example path_join_ex :
  path_join "." "a.c" = "./a.c" /\ path_join "repo/" "a.c" = "repo/a.c" /\
  path_join "repo" "/abs/a.c" = "/abs/a.c" /\ path_join EmptyString "a.c" = "a.c".
Proof. repeat split; reflexivity. Qed.

(** A field line outside a record raises whatever it holds. *)
Lemma field_line_outside_record (files : list record) (raw : string) :
  field_line raw = true ->
  parse_line files None raw = inl TypeError \/ parse_line files None raw = inl AttributeError.
Proof.
  intros H. pose proof (parse_line_agrees files None raw) as A.
  unfold field_line in H. destruct (read_line raw); try discriminate; simpl in A; auto.
Qed.

(** * Further properties of the script *)

(** ** The loop of [parse_lcov] *)

Lemma parse_lines_loop (report : list string) (files : list record) (cur : option record) :
  parse_lines report files cur
  = let* (files', cur') := loop_state report files cur in ret (flush files' cur').
Proof.
  rewrite <- (app_nil_r report) at 1. rewrite parse_lines_app.
  destruct (loop_state report files cur) as [e|[files' cur']]; reflexivity.
Qed.

Lemma parse_lcov_app (pre rest : list string) :
  parse_lcov (pre ++ rest)
  = let* (files, cur) := loop_state pre [] None in parse_lines rest files cur.
Proof. apply parse_lines_app. Qed.

Lemma parse_line_skipped (files : list record) (cur : option record) (raw : string) :
  skipped_line raw = true -> parse_line files cur raw = inr (files, cur).
Proof.
  unfold skipped_line, parse_line. generalize (Py.strip raw) as line. intros line H.
  destruct (Py.startswith line "TN:"); [reflexivity|].
  destruct (Py.startswith line "SF:"); [discriminate|].
  destruct (Py.startswith line "DA:"); [discriminate|].
  destruct (Py.startswith line "FN:"); [discriminate|].
  destruct (Py.startswith line "FNDA:"); [discriminate|].
  destruct (Py.startswith line "BRDA:"); [discriminate|].
  destruct (String.eqb line "end_of_record"); [discriminate|reflexivity].
Qed.

(** X1. A test-name line, a blank line or a line of an unknown tag can
    be put in or taken out anywhere in a report: the result of the parse,
    records or exception, is the same. *)
Theorem skipped_line_removable (pre rest : list string) (raw : string) :
  skipped_line raw = true ->
  parse_lcov (pre ++ raw :: rest) = parse_lcov (pre ++ rest).
Proof.
  intros H. rewrite !parse_lcov_app.
  destruct (loop_state pre [] None) as [e|[files cur]]; simpl; [reflexivity|].
  rewrite (parse_line_skipped files cur raw H). reflexivity.
Qed.

Lemma skipped_line_removable_witness :
  parse_lcov ["SF:a.c"; "  "; "DA:1,0"] = parse_lcov ["SF:a.c"; "DA:1,0"] /\
  parse_lcov ["SF:a.c"; "TN:DA:x"; "DA:1,0"] = parse_lcov ["SF:a.c"; "DA:1,0"] /\
  parse_lcov ["LF:12"; "DA:1,0"] = parse_lcov ["DA:1,0"].
Proof.
  split; [|split].
  - exact (skipped_line_removable ["SF:a.c"] ["DA:1,0"] "  " eq_refl).
  - exact (skipped_line_removable ["SF:a.c"] ["DA:1,0"] "TN:DA:x" eq_refl).
  - exact (skipped_line_removable [] ["DA:1,0"] "LF:12" eq_refl).
Defined.

Lemma read_line_end (raw : string) :
  Py.strip raw = "end_of_record" -> is_end_of_record raw = true.
Proof. intros H. unfold is_end_of_record, read_line. rewrite H. reflexivity. Qed.

Lemma sf_prefix (line : string) :
  Py.startswith line "SF:" = true -> Py.startswith line "TN:" = false.
Proof.
  destruct line as [|c r]; cbn [Py.startswith]; [discriminate|].
  destruct (Ascii.eqb_spec "S" c) as [<-|]; [|discriminate]. reflexivity.
Qed.

Lemma read_line_sf (raw : string) :
  Py.startswith (Py.strip raw) "SF:" = true ->
  read_line raw = Start (Py.drop 3 (Py.strip raw)).
Proof.
  intros H. unfold read_line. rewrite (sf_prefix _ H), H. reflexivity.
Qed.

Lemma flush_flush_none (files : list record) (cur : option record) :
  flush (flush files cur) None = flush files cur.
Proof. reflexivity. Qed.

(** X2. An [end_of_record] line is redundant where the loop flushes
    anyway: as the last line of the report, right before an [SF:] line,
    and right after another [end_of_record] line.  In particular it never
    adds an empty record. *)
Theorem end_of_record_redundant (e : string) :
  Py.strip e = "end_of_record" ->
  (forall pre, parse_lcov (pre ++ [e]) = parse_lcov pre) /\
  (forall pre sf rest,
      Py.startswith (Py.strip sf) "SF:" = true ->
      parse_lcov (pre ++ e :: sf :: rest) = parse_lcov (pre ++ sf :: rest)) /\
  (forall pre rest, parse_lcov (pre ++ e :: e :: rest) = parse_lcov (pre ++ e :: rest)).
Proof.
  intros H. apply read_line_end in H. split; [|split].
  - intros pre. rewrite parse_lcov_app. unfold parse_lcov. rewrite parse_lines_loop.
    destruct (loop_state pre [] None) as [x|[files cur]]; simpl; [reflexivity|].
    rewrite (parse_line_end files cur e H). reflexivity.
  - intros pre sf rest Hsf. apply read_line_sf in Hsf. rewrite !parse_lcov_app.
    destruct (loop_state pre [] None) as [x|[files cur]]; simpl; [reflexivity|].
    rewrite (parse_line_end files cur e H). simpl.
    rewrite !(parse_line_start _ _ sf _ Hsf). reflexivity.
  - intros pre rest. rewrite !parse_lcov_app.
    destruct (loop_state pre [] None) as [x|[files cur]]; simpl; [reflexivity|].
    rewrite (parse_line_end files cur e H). simpl.
    rewrite (parse_line_end _ None e H). reflexivity.
Qed.

Lemma end_of_record_redundant_witness :
  parse_lcov (["SF:a.c"; "DA:1,0"] ++ ["end_of_record "]) = parse_lcov ["SF:a.c"; "DA:1,0"].
Proof.
  exact (proj1 (end_of_record_redundant "end_of_record " eq_refl) ["SF:a.c"; "DA:1,0"]).
Defined.

(** X3. The first exception ends the parse: when a report makes
    [parse_lcov] raise, every report that continues it raises the same
    exception, whatever lines follow. *)
Theorem first_exception_wins (pre rest : list string) (e : exn) :
  parse_lcov pre = inl e -> parse_lcov (pre ++ rest) = inl e.
Proof.
  unfold parse_lcov at 1. rewrite parse_lines_loop, parse_lcov_app.
  destruct (loop_state pre [] None) as [x|[files cur]]; simpl; [tauto|discriminate].
Qed.

Lemma first_exception_wins_witness :
  parse_lcov (["SF:a.c"; "FNDA:many,f"] ++ ["SF:b.c"; "end_of_record"])
  = inl (ValueError_literal "many").
Proof.
  exact (first_exception_wins ["SF:a.c"; "FNDA:many,f"] ["SF:b.c"; "end_of_record"]
           (ValueError_literal "many") eq_refl).
Defined.

Lemma parse_line_files (files files' : list record) (cur cur' : option record) (raw : string) :
  parse_line files cur raw = inr (files', cur') ->
  map file (flush files' cur') = map file (flush files cur) ++ sf_paths [raw].
Proof.
  intros H. pose proof (parse_line_agrees files cur raw) as A.
  unfold sf_paths. simpl. rewrite app_nil_r.
  destruct (read_line raw); destruct cur as [c|]; simpl in A;
    repeat match type of A with
           | _ /\ _ => destruct A as [_ A]
           | ex _ => destruct A as [? A]
           end;
    rewrite A in H; try discriminate; injection H as <- <-; simpl;
    rewrite ?app_nil_r, ?map_app; reflexivity.
Qed.

Lemma loop_state_files (report : list string) : forall files cur files' cur',
  loop_state report files cur = inr (files', cur') ->
  map file (flush files' cur') = map file (flush files cur) ++ sf_paths report.
Proof.
  induction report as [|raw rest IH]; intros files cur files' cur' H; simpl in H.
  - injection H as -> ->. simpl. rewrite app_nil_r. reflexivity.
  - destruct (parse_line files cur raw) as [e|[f1 c1]] eqn:E; simpl in H; [discriminate|].
    rewrite (IH _ _ _ _ H), (parse_line_files _ _ _ _ _ E).
    rewrite <- app_assoc. f_equal. unfold sf_paths. simpl.
    rewrite app_nil_r. reflexivity.
Qed.

(** X4. A parse that succeeds neither drops nor invents a record: the
    files of the records returned are the paths of the [SF:] lines of the
    report, one record per line and in report order. *)
Theorem parse_lcov_files (report : list string) (recs : list record) :
  parse_lcov report = inr recs -> map file recs = sf_paths report.
Proof.
  unfold parse_lcov. rewrite parse_lines_loop.
  destruct (loop_state report [] None) as [e|[files cur]] eqn:E; simpl; [discriminate|].
  intros [= <-]. apply (loop_state_files report [] None files cur E).
Qed.

Lemma parse_lcov_files_witness :
  map file [new_record "a.c"; new_record "b.c"; new_record "a.c"]
  = sf_paths ["SF:a.c"; "end_of_record"; "junk"; "SF:b.c"; "SF:a.c"].
Proof.
  exact (parse_lcov_files ["SF:a.c"; "end_of_record"; "junk"; "SF:b.c"; "SF:a.c"]
           [new_record "a.c"; new_record "b.c"; new_record "a.c"] eq_refl).
Defined.

(** X5. A well-formed report of any number of sections, each closed by
    [end_of_record] or left open, parses without exception into one
    record per section, in order, and the builder returns one payload per
    section, carrying the path of its [SF:] line. *)
Theorem well_formed_report_payloads
  (read_lines : string -> option (list string)) (repo_root : string) (C : Z)
  (pre : list string) (secs : list section) :
  forallb idle_line pre = true ->
  forallb wf_section secs = true ->
  parse_lcov (pre ++ flat_map section_lines secs) = inr (map section_record secs) /\
  exists ps,
    llm_payload_from_lcov read_lines repo_root C (pre ++ flat_map section_lines secs)
    = inr ps /\
    map out_file ps = map sec_path secs.
Proof.
  intros Hp Hs. pose proof (parse_lcov_sections pre secs Hp Hs) as H.
  split; [exact H|].
  exists (map (payload_of read_lines repo_root C) (map section_record secs)).
  split.
  - unfold llm_payload_from_lcov. rewrite H. reflexivity.
  - rewrite !map_map. apply map_ext. intros s. simpl.
    unfold section_record. apply apply_body_file.
Qed.

Lemma well_formed_report_payloads_witness :
  exists ps,
    llm_payload_from_lcov sample_files "." 40
      ["TN:"; "SF:a.c"; "DA:2,0"; "end_of_record"; "TN:"; "SF:b.c"; "FNDA:0,g"; "SF:c.c"]
    = inr ps /\
    map out_file ps = ["a.c"; "b.c"; "c.c"].
Proof.
  exact (proj2 (well_formed_report_payloads sample_files "." 40 ["TN:"]
                  [mkSection "a.c" "SF:a.c" ["DA:2,0"] ["end_of_record"; "TN:"];
                   mkSection "b.c" "SF:b.c" ["FNDA:0,g"] [];
                   mkSection "c.c" "SF:c.c" [] []]
                  eq_refl eq_refl)).
Defined.

(** ** Whitespace around a line *)

Section Strip.
Variable sp : ascii -> bool.

Lemma rstrip_by_idem (s : string) : Py.rstrip_by sp (Py.rstrip_by sp s) = Py.rstrip_by sp s.
Proof.
  induction s as [|c r IH]; simpl; [reflexivity|].
  destruct (Py.rstrip_by sp r) as [|c' r'] eqn:E.
  - destruct (sp c) eqn:Ec; simpl; [reflexivity|]. rewrite Ec. reflexivity.
  - simpl in *. rewrite IH. reflexivity.
Qed.

Lemma lstrip_by_head (s : string) (c : ascii) (r : string) :
  Py.lstrip_by sp s = String c r -> sp c = false.
Proof.
  induction s as [|a t IH]; simpl; [discriminate|].
  destruct (sp a) eqn:Ea; [assumption|]. intros [= <- _]. assumption.
Qed.

Lemma rstrip_by_head (c : ascii) (r : string) :
  sp c = false -> exists r', Py.rstrip_by sp (String c r) = String c r'.
Proof.
  intros H. simpl. destruct (Py.rstrip_by sp r); [rewrite H|]; eexists; reflexivity.
Qed.

Lemma strip_by_idem (s : string) :
  Py.rstrip_by sp (Py.lstrip_by sp (Py.rstrip_by sp (Py.lstrip_by sp s)))
  = Py.rstrip_by sp (Py.lstrip_by sp s).
Proof.
  destruct (Py.lstrip_by sp s) as [|c r] eqn:E; [reflexivity|].
  pose proof (lstrip_by_head s c r E) as Hc.
  destruct (rstrip_by_head c r Hc) as [r' Hr]. rewrite Hr.
  cbn [Py.lstrip_by]. rewrite Hc. rewrite <- Hr. apply rstrip_by_idem.
Qed.
End Strip.

Lemma strip_idem (s : string) : Py.strip (Py.strip s) = Py.strip s.
Proof. apply strip_by_idem. Qed.

Lemma parse_line_strip (files : list record) (cur : option record) (raw : string) :
  parse_line files cur (Py.strip raw) = parse_line files cur raw.
Proof. unfold parse_line. rewrite strip_idem. reflexivity. Qed.

Lemma parse_lines_strip (report : list string) : forall files cur,
  parse_lines (map Py.strip report) files cur = parse_lines report files cur.
Proof.
  induction report as [|raw rest IH]; intros files cur; simpl; [reflexivity|].
  rewrite parse_line_strip.
  destruct (parse_line files cur raw) as [e|[f c]]; simpl; [reflexivity|apply IH].
Qed.

(** X6. Indentation, trailing blanks and the line terminators do not
    matter: a report and the same report with every line stripped parse
    to the same result. *)
Theorem parse_lcov_strip (report : list string) :
  parse_lcov (map Py.strip report) = parse_lcov report.
Proof. apply parse_lines_strip. Qed.

(** ** Dictionaries: lookup after update *)

Section DictLaws.
Context {K V : Type}.
Variable eqb : K -> K -> bool.
Hypothesis eqb_eq : forall a b, eqb a b = true <-> a = b.

Lemma eqb_same (k : K) : eqb k k = true.
Proof. apply eqb_eq. reflexivity. Qed.

Lemma eqb_other (k k' : K) : k <> k' -> eqb k k' = false.
Proof.
  intros H. destruct (eqb k k') eqn:E; [|reflexivity].
  apply eqb_eq in E. contradiction.
Qed.

Lemma dict_get_set_same (k : K) (v : V) (d : dict K V) :
  dict_get eqb k (dict_set eqb k v d) = Some v.
Proof.
  induction d as [|[k' v'] r IH]; simpl.
  - rewrite eqb_same. reflexivity.
  - destruct (eqb k k') eqn:E; simpl; rewrite E; [reflexivity|assumption].
Qed.

Lemma dict_get_set_other (k k' : K) (v : V) (d : dict K V) :
  k' <> k -> dict_get eqb k' (dict_set eqb k v d) = dict_get eqb k' d.
Proof.
  intros H. induction d as [|[k0 v0] r IH]; simpl.
  - rewrite (eqb_other k' k H). reflexivity.
  - destruct (eqb k k0) eqn:E; simpl.
    + apply eqb_eq in E. subst k0. rewrite (eqb_other k' k H). reflexivity.
    + rewrite IH. reflexivity.
Qed.

Lemma dict_set_keys (k x : K) (v : V) (d : dict K V) :
  In x (map fst (dict_set eqb k v d)) -> x = k \/ In x (map fst d).
Proof.
  induction d as [|[k' v'] r IH]; simpl.
  - intros [<-|[]]. now left.
  - destruct (eqb k k'); simpl; intuition.
Qed.

Lemma dict_set_NoDup (k : K) (v : V) (d : dict K V) :
  NoDup (map fst d) -> NoDup (map fst (dict_set eqb k v d)).
Proof.
  induction d as [|[k' v'] r IH]; simpl; intros H.
  - constructor; [intros []|constructor].
  - apply NoDup_cons_iff in H. destruct H as [Hk H].
    destruct (eqb k k') eqn:E; simpl.
    + constructor; assumption.
    + constructor; [|auto]. intros Hin. apply dict_set_keys in Hin.
      destruct Hin as [->|Hin]; [|contradiction].
      rewrite eqb_same in E. discriminate.
Qed.
End DictLaws.

(** ** Field lines *)

Lemma da_prefix (line : string) :
  Py.startswith line "DA:" = true ->
  Py.startswith line "TN:" = false /\ Py.startswith line "SF:" = false.
Proof.
  destruct line as [|c r]; cbn [Py.startswith]; [discriminate|].
  destruct (Ascii.eqb_spec "D" c) as [<-|]; [|discriminate].
  intros _. split; reflexivity.
Qed.

(** X7. A [DA:] line read into an open record sets the hit count of its
    line number, replacing a count recorded earlier for it; the counts of
    all other line numbers and the rest of the record stay as they are,
    and fields after the second are ignored. *)
Theorem da_line_sets_count
  (files : list record) (c : record) (raw ln hits : string) (extra : list string) (n h : Z) :
  Py.startswith (Py.strip raw) "DA:" = true ->
  Py.split "," (Some 2%nat) (Py.drop 3 (Py.strip raw)) = ln :: hits :: extra ->
  Py.int ln = Some n ->
  Py.int hits = Some h ->
  exists c',
    parse_line files (Some c) raw = inr (files, Some c') /\
    dict_get Z.eqb n (lines c') = Some h /\
    (forall m, m <> n -> dict_get Z.eqb m (lines c') = dict_get Z.eqb m (lines c)) /\
    file c' = file c /\ functions c' = functions c /\
    branches c' = branches c /\ fn_defs c' = fn_defs c.
Proof.
  intros Hp Hs Hn Hh. exists (set_line c n h). split.
  - unfold parse_line. destruct (da_prefix _ Hp) as [-> ->]. rewrite Hp, Hs.
    unfold int. rewrite Hh, Hn. reflexivity.
  - simpl. split; [apply (dict_get_set_same Z.eqb Z.eqb_eq)|].
    split; [|repeat split].
    intros m Hm. apply (dict_get_set_other Z.eqb Z.eqb_eq). assumption.
Qed.

Lemma da_line_sets_count_witness :
  exists c',
    parse_line [] (Some sample_record) " DA:2,5,Zm9v" = inr ([], Some c') /\
    dict_get Z.eqb 2 (lines c') = Some 5 /\
    (forall m, m <> 2 -> dict_get Z.eqb m (lines c') = dict_get Z.eqb m (lines sample_record)) /\
    file c' = file sample_record /\ functions c' = functions sample_record /\
    branches c' = branches sample_record /\ fn_defs c' = fn_defs sample_record.
Proof.
  exact (da_line_sets_count [] sample_record " DA:2,5,Zm9v" "2" "5" ["Zm9v"] 2 5
           eq_refl eq_refl eq_refl eq_refl).
Defined.

Lemma split_none_left (b : string) : Py.split "," (Some 0%nat) b = [b].
Proof.
  induction b as [|c r IH]; simpl; [reflexivity|].
  rewrite IH. destruct (Ascii.eqb c ","); reflexivity.
Qed.

Lemma split_first_field (a b : string) (m : nat) :
  no_comma a = true ->
  Py.split "," (Some (S m)) (String.append a (String "," b))
  = a :: Py.split "," (Some m) b.
Proof.
  induction a as [|c r IH]; simpl; intros H; [reflexivity|].
  apply andb_prop in H. destruct H as [Hc Hr].
  apply negb_true_iff in Hc. rewrite Hc, (IH Hr). reflexivity.
Qed.

(** X8. The name of a function is everything after the first comma of
    an [FN:] or [FNDA:] line, commas included: the line
    [FN:<line>,<name>] records the definition line under that name, and
    [FNDA:<hits>,<name>] the hit count. *)
Theorem function_name_keeps_commas
  (files : list record) (c : record) (raw_fn raw_fnda num name : string) (n : Z) :
  no_comma num = true ->
  Py.int num = Some n ->
  Py.strip raw_fn = String.append "FN:" (String.append num (String "," name)) ->
  Py.strip raw_fnda = String.append "FNDA:" (String.append num (String "," name)) ->
  (exists c', parse_line files (Some c) raw_fn = inr (files, Some c') /\
              fn_def_line c' name = Some n /\
              lines c' = lines c /\ functions c' = functions c) /\
  (exists c', parse_line files (Some c) raw_fnda = inr (files, Some c') /\
              dict_get String.eqb name (functions c') = Some n /\
              lines c' = lines c /\ fn_defs c' = fn_defs c).
Proof.
  intros Hc Hn Hfn Hfnda. split.
  - exists (set_fn_def c name n). split.
    + unfold parse_line. rewrite Hfn. cbn [String.append Py.startswith Py.drop].
      simpl Ascii.eqb. cbn [andb].
      rewrite (split_first_field num name 0 Hc), split_none_left.
      unfold int. rewrite Hn. reflexivity.
    + split; [|split; reflexivity].
      unfold fn_def_line. simpl. apply (dict_get_set_same String.eqb String.eqb_eq).
  - exists (set_function c name n). split.
    + unfold parse_line. rewrite Hfnda. cbn [String.append Py.startswith Py.drop].
      simpl Ascii.eqb. cbn [andb].
      rewrite (split_first_field num name 0 Hc), split_none_left.
      unfold int. rewrite Hn. reflexivity.
    + split; [|split; reflexivity].
      simpl. apply (dict_get_set_same String.eqb String.eqb_eq).
Qed.

Lemma function_name_keeps_commas_witness :
  (exists c', parse_line [] (Some (new_record "a.cc")) "FN:12,pair<int,int>::swap(a, b)"
              = inr ([], Some c') /\
              fn_def_line c' "pair<int,int>::swap(a, b)" = Some 12 /\
              lines c' = [] /\ functions c' = []) /\
  (exists c', parse_line [] (Some (new_record "a.cc")) "FNDA:12,pair<int,int>::swap(a, b)"
              = inr ([], Some c') /\
              dict_get String.eqb "pair<int,int>::swap(a, b)" (functions c') = Some 12 /\
              lines c' = [] /\ fn_defs c' = None).
Proof.
  exact (function_name_keeps_commas [] (new_record "a.cc")
           "FN:12,pair<int,int>::swap(a, b)" "FNDA:12,pair<int,int>::swap(a, b)"
           "12" "pair<int,int>::swap(a, b)" 12 eq_refl eq_refl eq_refl eq_refl).
Defined.

(** ** The dictionaries of a parsed record *)

Lemma new_record_unique (p : string) : unique_keys (new_record p).
Proof. split; constructor. Qed.

Lemma apply_item_unique (c : record) (it : item) :
  unique_keys c -> unique_keys (apply_item c it).
Proof.
  intros [Hl Hf]. destruct it; simpl; try (split; assumption); split; simpl;
    try assumption.
  - apply (dict_set_NoDup Z.eqb Z.eqb_eq). assumption.
  - apply (dict_set_NoDup String.eqb String.eqb_eq). assumption.
Qed.

Lemma parse_line_flush (files files' : list record) (cur cur' : option record) (raw : string) :
  parse_line files cur raw = inr (files', cur') ->
  flush files' cur' = flush files cur \/
  (exists p, flush files' cur' = flush files cur ++ [new_record p]) \/
  (exists c it, cur = Some c /\ files' = files /\ cur' = Some (apply_item c it)).
Proof.
  intros H. pose proof (parse_line_agrees files cur raw) as A.
  destruct (read_line raw) eqn:R; destruct cur as [c|];
    cbv beta iota delta [agrees] in A;
    repeat match type of A with
           | _ /\ _ => destruct A as [_ A]
           | ex _ => destruct A as [? A]
           end;
    rewrite A in H; try discriminate; injection H as <- <-;
    try first [ left; reflexivity | right; left; eexists; reflexivity ];
    right; right; exists c.
  - exists (Data ln hits). repeat split; reflexivity.
  - exists (FnDef ln name). repeat split; reflexivity.
  - exists (FnHits hits name). repeat split; reflexivity.
  - exists (Branch b). repeat split; reflexivity.
Qed.

Lemma parse_line_unique (files files' : list record) (cur cur' : option record) (raw : string) :
  Forall unique_keys (flush files cur) ->
  parse_line files cur raw = inr (files', cur') ->
  Forall unique_keys (flush files' cur').
Proof.
  intros Hu H. destruct (parse_line_flush _ _ _ _ _ H) as [E|[[p E]|[c [it [-> [-> ->]]]]]].
  - rewrite E. assumption.
  - rewrite E. apply Forall_app. split; [assumption|].
    constructor; [apply new_record_unique|constructor].
  - simpl in *. apply Forall_app in Hu. destruct Hu as [Hf Hc].
    apply Forall_app. split; [assumption|].
    constructor; [|constructor]. apply Forall_inv in Hc.
    apply apply_item_unique. assumption.
Qed.

Lemma loop_state_unique (report : list string) : forall files cur files' cur',
  Forall unique_keys (flush files cur) ->
  loop_state report files cur = inr (files', cur') ->
  Forall unique_keys (flush files' cur').
Proof.
  induction report as [|raw rest IH]; intros files cur files' cur' Hu H; simpl in H.
  - injection H as <- <-. assumption.
  - destruct (parse_line files cur raw) as [e|[f1 c1]] eqn:E; simpl in H; [discriminate|].
    apply (IH f1 c1 files' cur'); [|assumption].
    apply (parse_line_unique files f1 cur c1 raw Hu E).
Qed.

Lemma parse_lcov_unique (report : list string) (recs : list record) :
  parse_lcov report = inr recs -> Forall unique_keys recs.
Proof.
  unfold parse_lcov. rewrite parse_lines_loop.
  destruct (loop_state report [] None) as [e|[files cur]] eqn:E; simpl; [discriminate|].
  intros [= <-]. apply (loop_state_unique report [] None files cur); [constructor|assumption].
Qed.

Lemma uncovered_lines_In (f : record) (x : Z) :
  In x (uncovered_lines f) <-> In (x, 0) (lines f).
Proof.
  unfold uncovered_lines. rewrite in_map_iff. split.
  - intros [[k v] [<- H]]. apply filter_In in H. destruct H as [H Hz].
    simpl in *. apply Z.eqb_eq in Hz. subst v. assumption.
  - intros H. exists (x, 0). split; [reflexivity|]. apply filter_In. split; [assumption|reflexivity].
Qed.

(** X9. In the payload of a parsed record, a line number lies inside an
    uncovered range exactly when the hit count the record holds for it,
    the one of its last [DA:] entry, is 0. *)
Theorem uncovered_ranges_zero_hits
  (read_lines : string -> option (list string)) (repo_root : string) (C : Z)
  (report : list string) (recs : list record) (f : record) :
  parse_lcov report = inr recs ->
  In f recs ->
  forall x,
    covered (uncovered_ranges (payload_of read_lines repo_root C f)) x
    <-> dict_get Z.eqb x (lines f) = Some 0.
Proof.
  intros Hp Hf x. apply parse_lcov_unique in Hp.
  rewrite Forall_forall in Hp. destruct (Hp f Hf) as [Hl _].
  rewrite (dict_get_iff_In Z.eqb Z.eqb_eq x 0 (lines f) Hl).
  rewrite <- uncovered_lines_In. simpl. unfold covered.
  destruct (merge_ranges_chain (uncovered_lines f)) as [out [-> [_ Hcov]]].
  rewrite <- Hcov. split; intros [r [Hin Hr]]; exists r; split; try assumption.
  - apply in_rev. assumption.
  - apply in_rev in Hin. assumption.
Qed.

Lemma uncovered_ranges_zero_hits_witness :
  covered (uncovered_ranges (payload_of no_files "." 40
             {| file := "a.c"; lines := [(5, 0); (7, 0); (6, 0); (9, 3)];
                functions := []; branches := []; fn_defs := None |})) 6
  <-> dict_get Z.eqb 6 [(5, 0); (7, 0); (6, 0); (9, 3)] = Some 0.
Proof.
  exact (uncovered_ranges_zero_hits no_files "." 40
           ["SF:a.c"; "DA:5,1"; "DA:7,0"; "DA:6,0"; "DA:5,0"; "DA:9,3"]
           [ {| file := "a.c"; lines := [(5, 0); (7, 0); (6, 0); (9, 3)];
                functions := []; branches := []; fn_defs := None |} ]
           {| file := "a.c"; lines := [(5, 0); (7, 0); (6, 0); (9, 3)];
              functions := []; branches := []; fn_defs := None |}
           eq_refl (or_introl eq_refl) 6).
Defined.

Lemma filter_keys_NoDup {K V} (p : K * V -> bool) (d : list (K * V)) :
  NoDup (map fst d) -> NoDup (map fst (filter p d)).
Proof.
  induction d as [|e r IH]; simpl; intros H; [constructor|].
  apply NoDup_cons_iff in H. destruct H as [Hk H].
  destruct (p e); simpl; [|auto].
  constructor; [|auto]. intros Hin. apply Hk.
  apply in_map_iff in Hin. destruct Hin as [e' [He Hin]].
  apply filter_In in Hin. destruct Hin as [Hin _].
  rewrite <- He. apply in_map. assumption.
Qed.

(** X10. In the payload of a parsed record, a function is listed in
    [unexecuted_functions] exactly when the hit count the record holds
    for its name, the one of its last [FNDA:] line, is 0; it is listed
    with the definition line recorded for that name, if any, and no name
    is listed twice. *)
Theorem unexecuted_functions_listed
  (read_lines : string -> option (list string)) (repo_root : string) (C : Z)
  (report : list string) (recs : list record) (f : record) :
  parse_lcov report = inr recs ->
  In f recs ->
  (forall name line,
      In (mkUnexec name line) (unexecuted_functions (payload_of read_lines repo_root C f))
      <-> dict_get String.eqb name (functions f) = Some 0 /\ line = fn_def_line f name) /\
  NoDup (map uf_name (unexecuted_functions (payload_of read_lines repo_root C f))).
Proof.
  intros Hp Hf. apply parse_lcov_unique in Hp.
  rewrite Forall_forall in Hp. destruct (Hp f Hf) as [_ Hn].
  simpl. unfold unexec_funcs. split.
  - intros name line. rewrite (dict_get_iff_In String.eqb String.eqb_eq name 0 _ Hn).
    rewrite in_map_iff. split.
    + intros [[k v] [E H]]. apply filter_In in H. destruct H as [H Hz]. simpl in *.
      apply Z.eqb_eq in Hz. subst v. injection E as <- <-. split; [assumption|reflexivity].
    + intros [H ->]. exists (name, 0). split; [reflexivity|].
      apply filter_In. split; [assumption|reflexivity].
  - rewrite map_map. simpl. apply filter_keys_NoDup. assumption.
Qed.

Lemma unexecuted_functions_listed_witness :
  let f := {| file := "a.c"; lines := []; functions := [("f", 0); ("g", 2); ("h", 0)];
              branches := []; fn_defs := Some [("h", 9)] |} in
  (forall name line,
      In (mkUnexec name line) (unexecuted_functions (payload_of no_files "." 40 f))
      <-> dict_get String.eqb name (functions f) = Some 0 /\ line = fn_def_line f name) /\
  NoDup (map uf_name (unexecuted_functions (payload_of no_files "." 40 f))).
Proof.
  exact (unexecuted_functions_listed no_files "." 40
           ["SF:a.c"; "FNDA:3,f"; "FNDA:0,g"; "FN:9,h"; "FNDA:0,h"; "FNDA:0,f"; "FNDA:2,g"]
           [ {| file := "a.c"; lines := []; functions := [("f", 0); ("g", 2); ("h", 0)];
                branches := []; fn_defs := Some [("h", 9)] |} ]
           _ eq_refl (or_introl eq_refl)).
Defined.

(** ** [merge_ranges]: the result is determined by the set of lines *)

Lemma canonical_inv (a : Z * Z) (t : list (Z * Z)) :
  canonical (a :: t) ->
  fst a <= snd a /\ (forall r, In r t -> snd a + 1 < fst r) /\ canonical t.
Proof.
  intros [Hs Hn]. apply StronglySorted_inv in Hs. destruct Hs as [Hs Hall].
  apply Forall_cons_iff in Hn. destruct Hn as [Ha Hn].
  rewrite Forall_forall in Hall. repeat split; auto.
Qed.

Lemma canonical_lower (a : Z * Z) (t : list (Z * Z)) (x : Z) :
  canonical (a :: t) -> covered (a :: t) x -> fst a <= x.
Proof.
  intros Hc [r [[<-|Hin] Hr]]; unfold covers in Hr; [lia|].
  destruct (canonical_inv a t Hc) as [Ha [Hgap _]]. specialize (Hgap r Hin). lia.
Qed.

Lemma canonical_head_covered (a : Z * Z) (t : list (Z * Z)) (x : Z) :
  canonical (a :: t) -> fst a <= x <= snd a + 1 -> covered (a :: t) x -> x <= snd a.
Proof.
  intros Hc Hx [r [[<-|Hin] Hr]]; unfold covers in Hr; [lia|].
  destruct (canonical_inv a t Hc) as [_ [Hgap _]]. specialize (Hgap r Hin). lia.
Qed.

Lemma canonical_unique (rs1 : list (Z * Z)) : forall rs2,
  canonical rs1 -> canonical rs2 ->
  (forall x, covered rs1 x <-> covered rs2 x) ->
  rs1 = rs2.
Proof.
  induction rs1 as [|a t1 IH]; intros [|b t2] H1 H2 Hcov.
  - reflexivity.
  - exfalso. destruct (canonical_inv b t2 H2) as [Hb _].
    assert (Hx : covered (b :: t2) (fst b))
      by (exists b; split; [now left|unfold covers; lia]).
    apply Hcov in Hx. destruct Hx as [r [[] _]].
  - exfalso. destruct (canonical_inv a t1 H1) as [Ha _].
    assert (Hx : covered (a :: t1) (fst a))
      by (exists a; split; [now left|unfold covers; lia]).
    apply Hcov in Hx. destruct Hx as [r [[] _]].
  - destruct (canonical_inv a t1 H1) as [Ha [Hga Hc1]].
    destruct (canonical_inv b t2 H2) as [Hb [Hgb Hc2]].
    assert (Ca : forall x, fst a <= x <= snd a -> covered (a :: t1) x)
      by (intros x Hx; exists a; split; [now left|exact Hx]).
    assert (Cb : forall x, fst b <= x <= snd b -> covered (b :: t2) x)
      by (intros x Hx; exists b; split; [now left|exact Hx]).
    assert (Hfst : fst a = fst b).
    { assert (Ha' : fst a <= fst a <= snd a) by lia.
      assert (Hb' : fst b <= fst b <= snd b) by lia.
      pose proof (canonical_lower b t2 (fst a) H2 (proj1 (Hcov _) (Ca _ Ha'))).
      pose proof (canonical_lower a t1 (fst b) H1 (proj2 (Hcov _) (Cb _ Hb'))).
      lia. }
    assert (Hsnd : snd a = snd b).
    { destruct (Z.lt_trichotomy (snd a) (snd b)) as [Hlt|[Heq|Hgt]]; [|assumption|].
      - assert (Hx : fst b <= snd a + 1 <= snd b) by lia.
        assert (Hy : fst a <= snd a + 1 <= snd a + 1) by lia.
        pose proof (canonical_head_covered a t1 (snd a + 1) H1 Hy
                      (proj2 (Hcov _) (Cb _ Hx))). lia.
      - assert (Hx : fst a <= snd b + 1 <= snd a) by lia.
        assert (Hy : fst b <= snd b + 1 <= snd b + 1) by lia.
        pose proof (canonical_head_covered b t2 (snd b + 1) H2 Hy
                      (proj1 (Hcov _) (Ca _ Hx))). lia. }
    assert (Hab : a = b) by (destruct a, b; simpl in *; congruence).
    subst b. f_equal. apply IH; try assumption.
    intros x. split; intros [r [Hin Hr]].
    + assert (Hx : covered (a :: t2) x)
        by (apply Hcov; exists r; split; [now right|assumption]).
      destruct Hx as [r' [[<-|Hin'] Hr']]; [|exists r'; split; assumption].
      specialize (Hga r Hin). unfold covers in *. lia.
    + assert (Hx : covered (a :: t1) x)
        by (apply Hcov; exists r; split; [now right|assumption]).
      destruct Hx as [r' [[<-|Hin'] Hr']]; [|exists r'; split; assumption].
      specialize (Hgb r Hin). unfold covers in *. lia.
Qed.

Lemma merge_ranges_canonical (lines : list Z) :
  canonical (merge_ranges lines) /\
  forall x, covered (merge_ranges lines) x <-> In x lines.
Proof.
  destruct (merge_ranges_chain lines) as [out [-> [Hc Hcov]]]. split; [split|].
  - apply StronglySorted_rev, chain_StronglySorted. assumption.
  - apply Forall_rev, chain_nonempty. assumption.
  - intros x. rewrite <- Hcov. unfold covered.
    split; intros [r [Hin Hr]]; exists r; split; try assumption.
    + apply in_rev. assumption.
    + apply in_rev in Hin. assumption.
Qed.

(** X12. The ranges depend on the set of line numbers only: two lists
    with the same elements, in any order and with any repetitions, give
    the same ranges. *)
Theorem merge_ranges_same_set (l l' : list Z) :
  (forall x, In x l <-> In x l') -> merge_ranges l = merge_ranges l'.
Proof.
  intros H. destruct (merge_ranges_canonical l) as [Hc Hcov].
  destruct (merge_ranges_canonical l') as [Hc' Hcov'].
  apply canonical_unique; try assumption.
  intros x. rewrite Hcov, Hcov'. apply H.
Qed.

Lemma merge_ranges_same_set_witness :
  merge_ranges [3; 1; 2; 2; 9] = merge_ranges [9; 2; 3; 1; 1; 1].
Proof.
  apply (merge_ranges_same_set [3; 1; 2; 2; 9] [9; 2; 3; 1; 1; 1]).
  intros x. simpl. intuition.
Defined.

(** X13. [merge_ranges] returns the only list of ranges in canonical
    form that covers the given lines: a list of non-empty ranges,
    ascending with a hole between neighbours, whose covered numbers are
    the given ones, is the result. *)
Theorem merge_ranges_unique (lines : list Z) (rs : list (Z * Z)) :
  canonical rs ->
  (forall x, covered rs x <-> In x lines) ->
  merge_ranges lines = rs.
Proof.
  intros Hc Hcov. destruct (merge_ranges_canonical lines) as [Hm Hmcov].
  apply canonical_unique; try assumption.
  intros x. rewrite Hmcov, Hcov. reflexivity.
Qed.

Lemma merge_ranges_unique_witness :
  merge_ranges [4; 9; 5; 3] = [(3, 5); (9, 9)].
Proof.
  apply (merge_ranges_unique [4; 9; 5; 3] [(3, 5); (9, 9)]).
  - split.
    + repeat constructor; unfold gap; simpl; lia.
    + repeat constructor; simpl; lia.
  - intros x. unfold covered, covers. simpl. split.
    + intros [r [[<-|[<-|[]]] Hr]]; simpl in Hr; lia.
    + intros H.
      assert (Hx : 3 <= x <= 5 \/ x = 9) by lia.
      destruct Hx as [Hx|Hx].
      * exists (3, 5). split; [now left|simpl; lia].
      * exists (9, 9). split; [right; now left|simpl; lia].
Defined.

(** ** The window of [slice_around] *)

Lemma firstn_plus {A} (k j : nat) (l : list A) :
  firstn (k + j) l = firstn k l ++ firstn j (skipn k l).
Proof.
  revert l. induction k as [|k IH]; intros l; simpl; [reflexivity|].
  destruct l as [|x r]; simpl; [rewrite firstn_nil; reflexivity|].
  rewrite IH. reflexivity.
Qed.

Lemma seg_split {A} (a b c : nat) (l : list A) :
  (a <= b)%nat -> (b <= c)%nat -> seg a c l = seg a b l ++ seg b c l.
Proof.
  intros Hab Hbc. unfold seg.
  replace (c - a)%nat with ((b - a) + (c - b))%nat by lia.
  rewrite firstn_plus, skipn_skipn.
  replace (b - a + a)%nat with b by lia. reflexivity.
Qed.

Lemma seg_whole {A} (a b : nat) (l : list A) :
  (a <= b)%nat -> l = firstn a l ++ seg a b l ++ skipn b l.
Proof.
  intros Hab. unfold seg.
  rewrite <- (firstn_skipn a l) at 1. f_equal.
  rewrite <- (firstn_skipn (b - a) (skipn a l)) at 1. f_equal.
  rewrite skipn_skipn. replace (b - a + a)%nat with b by lia. reflexivity.
Qed.

Lemma seg_length {A} (a b : nat) (l : list A) :
  (a <= b)%nat -> (b <= List.length l)%nat -> List.length (seg a b l) = (b - a)%nat.
Proof.
  intros Hab Hb. unfold seg. rewrite length_firstn, length_skipn. lia.
Qed.

Lemma slice_around_nonempty (C : Z) (ls : list string) (start end_ : Z) :
  ls <> [] ->
  slice_around C (Some ls) start end_
  = Py.join (Py.slice ls (Z.max 0 (start - 1 - C))
                      (Z.min (Z.of_nat (List.length ls)) (end_ + C))).
Proof. destruct ls; [contradiction|reflexivity]. Qed.

(** X14. For a span of existing lines and a non-negative window [C],
    the snippet is the text of a contiguous block of the file: the lines
    of the span, at their place in the file, preceded by the [C] lines
    before them and followed by the [C] lines after them, fewer only
    where the file begins or ends. *)
Theorem slice_around_context (C : Z) (ls : list string) (start end_ : Z) :
  0 <= C -> 1 <= start -> start <= end_ -> end_ <= Z.of_nat (List.length ls) ->
  exists pre before after post,
    ls = pre ++ before ++ lines_between ls start end_ ++ after ++ post /\
    Z.of_nat (List.length (pre ++ before)) = start - 1 /\
    Z.of_nat (List.length (lines_between ls start end_)) = end_ - start + 1 /\
    slice_around C (Some ls) start end_
    = Py.join (before ++ lines_between ls start end_ ++ after) /\
    (pre = [] \/ Z.of_nat (List.length before) = C) /\
    (post = [] \/ Z.of_nat (List.length after) = C) /\
    Z.of_nat (List.length before) <= C /\ Z.of_nat (List.length after) <= C.
Proof.
  intros HC Hs Hse He.
  assert (Hne : ls <> []) by (intros ->; simpl in He; lia).
  set (n := List.length ls) in *.
  set (s := Z.to_nat (start - 1)). set (e := Z.to_nat end_).
  set (lo := Z.to_nat (Z.max 0 (start - 1 - C))).
  set (hi := Z.to_nat (Z.min (Z.of_nat n) (end_ + C))).
  assert (Hlo : (lo <= s)%nat) by (unfold lo, s; lia).
  assert (Hs' : (s <= e)%nat) by (unfold s, e; lia).
  assert (Hhi : (e <= hi)%nat) by (unfold e, hi; lia).
  assert (Hn : (hi <= n)%nat) by (unfold hi; lia).
  assert (Ht : lines_between ls start end_ = seg s e ls).
  { unfold lines_between, seg. fold s. f_equal. unfold s, e. lia. }
  exists (firstn lo ls), (seg lo s ls), (seg e hi ls), (skipn hi ls).
  rewrite Ht. split; [|split; [|split; [|split; [|split; [|split; [|split]]]]]].
  - rewrite (seg_whole lo hi ls) at 1 by lia.
    rewrite (seg_split lo s hi) by lia. rewrite (seg_split s e hi) by lia.
    rewrite <- !app_assoc. reflexivity.
  - rewrite length_app, length_firstn, seg_length by lia. fold n. unfold s. lia.
  - rewrite seg_length by lia. unfold s, e. lia.
  - rewrite (slice_around_nonempty C ls start end_ Hne). f_equal.
    rewrite <- (seg_split s e hi) by lia. rewrite <- (seg_split lo s hi) by lia.
    unfold Py.slice, Py.clamp_index, seg. fold n.
    destruct (Z.ltb_spec (Z.max 0 (start - 1 - C)) 0); [lia|].
    destruct (Z.ltb_spec (Z.min (Z.of_nat n) (end_ + C)) 0); [lia|].
    f_equal; [unfold hi, lo; lia|f_equal; unfold lo; lia].
  - destruct lo eqn:E; [left; reflexivity|right].
    rewrite seg_length by lia. unfold lo in E. unfold s. lia.
  - destruct (Nat.eq_dec hi n) as [E|E].
    + left. rewrite E. apply skipn_all.
    + right. rewrite seg_length by lia. unfold hi in *. unfold e. lia.
  - rewrite seg_length by lia. unfold lo, s. lia.
  - rewrite seg_length by lia. unfold hi, e. lia.
Qed.

Lemma slice_around_context_witness :
  exists pre before after post,
    ten_lines = pre ++ before ++ lines_between ten_lines 5 6 ++ after ++ post /\
    Z.of_nat (List.length (pre ++ before)) = 5 - 1 /\
    Z.of_nat (List.length (lines_between ten_lines 5 6)) = 6 - 5 + 1 /\
    slice_around 2 (Some ten_lines) 5 6
    = Py.join (before ++ lines_between ten_lines 5 6 ++ after) /\
    (pre = [] \/ Z.of_nat (List.length before) = 2) /\
    (post = [] \/ Z.of_nat (List.length after) = 2) /\
    Z.of_nat (List.length before) <= 2 /\ Z.of_nat (List.length after) <= 2.
Proof.
  apply (slice_around_context 2 ten_lines 5 6); simpl; lia.
Defined.

(** ** The entry point *)

Lemma slice_first {A} (l : list A) (k : Z) :
  0 <= k -> Py.slice l 0 k = firstn (Z.to_nat k) l.
Proof.
  intros Hk. unfold Py.slice, Py.clamp_index. simpl skipn.
  destruct (Z.ltb_spec 0 0); [lia|]. destruct (Z.ltb_spec k 0); [lia|].
  replace (Z.to_nat (Z.min 0 (Z.of_nat (List.length l)))) with 0%nat by lia.
  simpl skipn.
  destruct (Z_le_gt_dec k (Z.of_nat (List.length l))).
  - f_equal. lia.
  - rewrite !firstn_all2 by lia. reflexivity.
Qed.

Lemma string_of_list_ascii_app (l1 l2 : list ascii) :
  string_of_list_ascii (l1 ++ l2)
  = String.append (string_of_list_ascii l1) (string_of_list_ascii l2).
Proof. induction l1 as [|c r IH]; simpl; [reflexivity|rewrite IH; reflexivity]. Qed.

Lemma string_of_list_ascii_length (l : list ascii) :
  String.length (string_of_list_ascii l) = List.length l.
Proof. induction l as [|c r IH]; simpl; [reflexivity|rewrite IH; reflexivity]. Qed.

Lemma str_prefix_spec (s : string) (k : Z) :
  0 <= k ->
  (exists rest, s = String.append (str_prefix s k) rest) /\
  Z.of_nat (String.length (str_prefix s k)) <= k.
Proof.
  intros Hk. unfold str_prefix. rewrite slice_first by assumption. split.
  - exists (string_of_list_ascii (skipn (Z.to_nat k) (list_ascii_of_string s))).
    rewrite <- string_of_list_ascii_app, firstn_skipn.
    symmetry. apply string_of_list_ascii_of_string.
  - rewrite string_of_list_ascii_length.
    pose proof (firstn_le_length (Z.to_nat k) (list_ascii_of_string s)). lia.
Qed.

(** X15. When the report parses and the size given is not negative, the
    entry point prints the prompt, or a warning when the prompt cannot be
    read, unless raw output is asked for, and then one text: a prefix, at
    most [size] characters long, of the serialization of the first ten
    payloads. *)
Theorem main_prints_preview
  (dumps : list payload -> string) (read_lines : string -> option (list string))
  (read_text : string -> string + string)
  (size : Z) (raw : bool) (report : list string) (payloads : list payload) :
  0 <= size ->
  llm_payload_from_lcov read_lines "." default_context_lines report = inr payloads ->
  exists header body rest,
    main dumps read_lines read_text size raw report = inr (header ++ [body]) /\
    header = (if raw then []
              else match read_text prompt_path with
                   | inr text => [text]
                   | inl e => [String.append "# Warning: failed to read prompt: " e]
                   end) /\
    dumps (firstn 10 payloads) = String.append body rest /\
    Z.of_nat (String.length body) <= size.
Proof.
  intros Hs Hp. unfold main. rewrite Hp. simpl.
  rewrite (slice_first payloads 10) by lia.
  destruct (str_prefix_spec (dumps (firstn (Z.to_nat 10) payloads)) size Hs) as [[rest Hr] Hl].
  eexists. exists (str_prefix (dumps (firstn (Z.to_nat 10) payloads)) size), rest.
  split; [reflexivity|]. split; [destruct raw; reflexivity|].
  split; assumption.
Qed.

Lemma main_prints_preview_witness :
  exists header body rest,
    main (fun ps => match ps with [] => "[]" | _ => "[{...}]" end)
         sample_files (fun _ => inl "No such file") 3 false
         ["SF:a.c"; "DA:1,1"; "DA:2,0"; "end_of_record"]
    = inr (header ++ [body]) /\
    header = ["# Warning: failed to read prompt: No such file"] /\
    "[{...}]" = String.append body rest /\
    Z.of_nat (String.length body) <= 3.
Proof.
  exact (main_prints_preview
           (fun ps => match ps with [] => "[]" | _ => "[{...}]" end)
           sample_files (fun _ => inl "No such file") 3 false
           ["SF:a.c"; "DA:1,1"; "DA:2,0"; "end_of_record"] _
           ltac:(lia) eq_refl).
Defined.

(** ** Lines with the wrong number of fields *)

Lemma parse_line_bad_shape (files : list record) (cur : option record) (raw : string) :
  read_line raw = BadShape ->
  parse_line files cur raw = inl IndexError \/
  exists expected got, expected <> got /\
    parse_line files cur raw = inl (ValueError_unpack expected got).
Proof.
  unfold parse_line, read_line.
  generalize (Py.strip raw) as line. intros line.
  line_cases; intros H; try discriminate H;
    first [ left; reflexivity
          | right; eexists; eexists; split; [|reflexivity]; simpl; lia ].
Qed.

Lemma parse_lines_bad_shape (report : list string) : forall files cur,
  existsb bad_shape report = true -> exists e, parse_lines report files cur = inl e.
Proof.
  induction report as [|raw rest IH]; intros files cur H; simpl in *; [discriminate|].
  destruct (parse_line files cur raw) as [e|[files' cur']] eqn:E; simpl; [eauto|].
  apply orb_prop in H. destruct H as [H|H]; [|apply IH; assumption].
  unfold bad_shape in H. destruct (read_line raw) eqn:R; try discriminate.
  destruct (parse_line_bad_shape files cur raw R) as [A|[k [g [_ A]]]]; congruence.
Qed.

Lemma split_length_bound (sep : ascii) (m : nat) (s : string) :
  (1 <= List.length (Py.split sep (Some m) s) <= m + 1)%nat.
Proof.
  revert m. induction s as [|c r IH]; intros m; simpl; [lia|].
  assert (G : (1 <= List.length (match Py.split sep (Some m) r with
                                 | p :: ps => String c p :: ps
                                 | [] => [String c EmptyString]
                                 end) <= m + 1)%nat).
  { specialize (IH m). destruct (Py.split sep (Some m) r); simpl in *; lia. }
  destruct (Ascii.eqb c sep); [|exact G].
  destruct m as [|m']; [exact G|]. specialize (IH m'). simpl. lia.
Qed.

Lemma fn_prefix (line : string) :
  Py.startswith line "FN:" = true ->
  Py.startswith line "TN:" = false /\ Py.startswith line "SF:" = false /\
  Py.startswith line "DA:" = false.
Proof.
  destruct line as [|c r]; cbn [Py.startswith]; [discriminate|].
  destruct (Ascii.eqb_spec "F" c) as [<-|]; [|discriminate].
  intros _. repeat split; reflexivity.
Qed.

Lemma fnda_prefix (line : string) :
  Py.startswith line "FNDA:" = true ->
  Py.startswith line "TN:" = false /\ Py.startswith line "SF:" = false /\
  Py.startswith line "DA:" = false /\ Py.startswith line "FN:" = false.
Proof.
  destruct line as [|c1 [|c2 [|c3 r]]]; cbn [Py.startswith];
    try (intros H; repeat (apply andb_prop in H; destruct H as [? H]); discriminate).
  destruct (Ascii.eqb_spec "F" c1) as [<-|]; [|discriminate].
  destruct (Ascii.eqb_spec "N" c2) as [<-|]; [|discriminate].
  destruct (Ascii.eqb_spec "D" c3) as [<-|]; [|discriminate].
  intros _. repeat split; reflexivity.
Qed.

(** X16. A line of a recognized tag with the wrong number of fields
    raises whether a record is open or not, and the exception is the one
    of its tag: [IndexError] for a [DA:] line, which then has a single
    field; the [ValueError] of unpacking one value into two for an [FN:]
    or [FNDA:] line, which then has no comma; the [ValueError] of
    unpacking into four for a [BRDA:] line, with the number of fields it
    has, which is not four.  Such a line has one of these four tags, and
    a report that holds it never parses. *)
Theorem bad_shape_raises (pre rest : list string) (raw : string) :
  bad_shape raw = true ->
  (forall files cur,
      (Py.startswith (Py.strip raw) "DA:" = true ->
       parse_line files cur raw = inl IndexError) /\
      (Py.startswith (Py.strip raw) "FN:" = true ->
       parse_line files cur raw = inl (ValueError_unpack 2 1)) /\
      (Py.startswith (Py.strip raw) "FNDA:" = true ->
       parse_line files cur raw = inl (ValueError_unpack 2 1)) /\
      (Py.startswith (Py.strip raw) "BRDA:" = true ->
       List.length (Py.split "," None (Py.drop 5 (Py.strip raw))) <> 4%nat /\
       parse_line files cur raw
       = inl (ValueError_unpack 4
                (List.length (Py.split "," None (Py.drop 5 (Py.strip raw))))))) /\
  (Py.startswith (Py.strip raw) "DA:" = true \/
   Py.startswith (Py.strip raw) "FN:" = true \/
   Py.startswith (Py.strip raw) "FNDA:" = true \/
   Py.startswith (Py.strip raw) "BRDA:" = true) /\
  (exists e, parse_lcov (pre ++ raw :: rest) = inl e).
Proof.
  intros H. split; [|split].
  - intros files cur. unfold bad_shape, read_line in H. unfold parse_line.
    revert H. generalize (Py.strip raw) as line. intros line H.
    split; [|split; [|split]]; intros Ht.
    + destruct (da_prefix _ Ht) as [E1 E2]. rewrite E1, E2, Ht in *.
      destruct (Py.split "," (Some 2%nat) (Py.drop 3 line)) as [|x [|y l]];
        try reflexivity.
      unfold number in H. destruct (Py.int y); [destruct (Py.int x)|]; discriminate H.
    + destruct (fn_prefix _ Ht) as [E1 [E2 E3]]. rewrite E1, E2, E3, Ht in *.
      pose proof (split_length_bound "," 1 (Py.drop 3 line)) as B.
      destruct (Py.split "," (Some 1%nat) (Py.drop 3 line)) as [|x [|y [|z l]]];
        simpl in B; try lia; try reflexivity.
      unfold number in H. destruct (Py.int x); discriminate H.
    + destruct (fnda_prefix _ Ht) as [E1 [E2 [E3 E4]]]. rewrite E1, E2, E3, E4, Ht in *.
      pose proof (split_length_bound "," 1 (Py.drop 5 line)) as B.
      destruct (Py.split "," (Some 1%nat) (Py.drop 5 line)) as [|x [|y [|z l]]];
        simpl in B; try lia; try reflexivity.
      unfold number in H. destruct (Py.int x); discriminate H.
    + destruct (brda_prefix _ Ht) as [E1 [E2 [E3 [E4 E5]]]].
      rewrite E1, E2, E3, E4, E5, Ht in *.
      destruct (Py.split "," None (Py.drop 5 line)) as [|x [|y [|z [|w [|v l]]]]];
        try (split; [simpl; lia|reflexivity]).
      exfalso. unfold number in H.
      destruct (Py.int x); [|discriminate H].
      destruct (Py.int y); [|discriminate H].
      destruct (Py.int z); [|discriminate H].
      destruct (String.eqb w "0" || String.eqb w "-"); [discriminate H|].
      destruct (Py.int w); discriminate H.
  - unfold bad_shape, read_line in H. revert H.
    generalize (Py.strip raw) as line. intros line H.
    destruct (Py.startswith line "TN:"); [discriminate H|].
    destruct (Py.startswith line "SF:"); [discriminate H|].
    destruct (Py.startswith line "DA:"); [now left|].
    destruct (Py.startswith line "FN:"); [right; now left|].
    destruct (Py.startswith line "FNDA:"); [right; right; now left|].
    destruct (Py.startswith line "BRDA:"); [right; right; now right|].
    destruct (String.eqb line "end_of_record"); discriminate H.
  - apply parse_lines_bad_shape. rewrite existsb_app. simpl. rewrite H.
    rewrite orb_true_r. reflexivity.
Qed.

Lemma bad_shape_raises_witness :
  (forall files cur,
      parse_line files cur "BRDA:3,0,1" = inl (ValueError_unpack 4 3)) /\
  (forall files cur,
      parse_line files cur " DA:7" = inl IndexError) /\
  (forall files cur,
      parse_line files cur "FN:12" = inl (ValueError_unpack 2 1)) /\
  (exists e, parse_lcov (["SF:a.c"] ++ "BRDA:3,0,1" :: ["end_of_record"]) = inl e).
Proof.
  split; [|split; [|split]].
  - intros files cur.
    exact (proj2 (proj2 (proj2 (proj2 (proj1 (bad_shape_raises [] [] "BRDA:3,0,1" eq_refl)
                                         files cur))) eq_refl)).
  - intros files cur.
    exact (proj1 (proj1 (bad_shape_raises [] [] " DA:7" eq_refl) files cur) eq_refl).
  - intros files cur.
    exact (proj1 (proj2 (proj1 (bad_shape_raises [] [] "FN:12" eq_refl) files cur)) eq_refl).
  - exact (proj2 (proj2 (bad_shape_raises ["SF:a.c"] ["end_of_record"] "BRDA:3,0,1" eq_refl))).
Defined.

Example bad_shape_ex :
  parse_lcov ["SF:a.c"; "DA:7"] = inl IndexError /\
  parse_lcov ["FN:12"] = inl (ValueError_unpack 2 1) /\
  parse_lcov ["BRDA:1,2,3,4,5"] = inl (ValueError_unpack 4 5).
Proof. repeat split; reflexivity. Qed.

(** ** Branches of a parsed section *)

Lemma apply_body_branches (body : list string) : forall c,
  branches (apply_body c body) = branches c ++ branch_entries body.
Proof.
  unfold apply_body, branch_entries.
  induction body as [|raw body IH]; intros c; simpl; [rewrite app_nil_r; reflexivity|].
  rewrite IH. destruct (read_line raw); simpl; rewrite <- ?app_assoc; reflexivity.
Qed.

(** X17. For a well-formed report, the [uncovered_branches] of the
    payload of a section are the line and branch index of the [BRDA:]
    entries of the section whose hits are 0 or [-], one per entry and in
    report order; entries that repeat a branch are kept. *)
Theorem uncovered_branches_in_report_order
  (read_lines : string -> option (list string)) (repo_root : string) (C : Z)
  (pre : list string) (secs : list section) :
  forallb idle_line pre = true ->
  forallb wf_section secs = true ->
  exists ps,
    llm_payload_from_lcov read_lines repo_root C (pre ++ flat_map section_lines secs)
    = inr ps /\
    map uncovered_branches ps
    = map (fun s => map (fun b => mkUncovered (br_line b) (br_branch b))
                        (filter (fun b => br_hits b =? 0) (branch_entries (sec_body s))))
          secs.
Proof.
  intros Hp Hs. pose proof (parse_lcov_sections pre secs Hp Hs) as H.
  exists (map (payload_of read_lines repo_root C) (map section_record secs)).
  split.
  - unfold llm_payload_from_lcov. rewrite H. reflexivity.
  - rewrite !map_map. apply map_ext. intros s. simpl.
    unfold zero_hit_branches, section_record. rewrite apply_body_branches. reflexivity.
Qed.

Lemma uncovered_branches_in_report_order_witness :
  exists ps,
    llm_payload_from_lcov no_files "." 40
      ["SF:a.c"; "BRDA:4,0,1,-"; "BRDA:4,0,0,2"; "BRDA:9,1,0,0"; "BRDA:4,0,1,-"; "end_of_record"]
    = inr ps /\
    map uncovered_branches ps = [[mkUncovered 4 1; mkUncovered 9 0; mkUncovered 4 1]].
Proof.
  exact (uncovered_branches_in_report_order no_files "." 40 []
           [mkSection "a.c" "SF:a.c"
              ["BRDA:4,0,1,-"; "BRDA:4,0,0,2"; "BRDA:9,1,0,0"; "BRDA:4,0,1,-"]
              ["end_of_record"]]
           eq_refl eq_refl).
Defined.
